(** * preconf_analytics_duckdb: the storage accessor, the join engine and
    the sync cycle

    A shallow embedding of [src/pipe/data_processing.py] and of [get_events]
    in [src/pipe/query_commits.py].

    - A Polars [DataFrame] / DuckDB table is a schema (ordered column names)
      together with its rows; a row maps column names to cells, and a cell
      may be NULL.  Column types are not tracked: a cell carries its own.
    - The DuckDB file is a finite map from table names to tables; the file
      name only shows up in messages.
    - Python exceptions are values of [exn]; a function that may raise
      returns a [result], and a function that also changes the store returns
      the store next to it (a raising statement leaves the store as it was).
    - [time.sleep] and [duckdb.connect] are recorded in a trace of events;
      what each connection attempt runs into is given by an oracle, and so
      is what the event source returns.  Info-level logging is left out. *)

From Stdlib Require Import Ascii String QArith Qcanon Floats.
From stdpp Require Import numbers strings pretty gmap.

Local Open Scope string_scope.
Local Open Scope list_scope.
Local Open Scope Z_scope.

(** ** Cells, rows, frames *)

Inductive cell :=
  | Null
  | Int (z : Z)
  | Str (s : string)
  | Bool (b : bool).

#[global] Instance cell_eq_dec : EqDecision cell.
Proof. solve_decision. Defined.
#[global] Instance cell_inhabited : Inhabited cell := populate Null.

Definition is_null (c : cell) : bool :=
  match c with Null => true | _ => false end.

(** Equality as SQL and Polars joins see it: NULL equals nothing. *)
Definition sql_eq (a b : cell) : bool :=
  negb (is_null a) && negb (is_null b) && bool_decide (a = b).

Abbreviation row := (gmap string cell).

Record DataFrame := mkDF {
  columns : list string;
  rows : list row
}.

#[global] Instance DataFrame_eq_dec : EqDecision DataFrame.
Proof. solve_decision. Defined.

(** [pl.DataFrame()] *)
Definition empty_frame : DataFrame := mkDF [] [].

(** [df.is_empty()] and [len(df)] *)
Definition is_empty (df : DataFrame) : bool :=
  match rows df with [] => true | _ => false end.
Definition height (df : DataFrame) : nat := length (rows df).

(** The column [c] of a frame, top to bottom. *)
Definition column (c : string) (rs : list row) : list cell :=
  (λ r : row, r !!! c) <$> rs.

(** ** Exceptions *)

Inductive exn :=
  | KeyError (k : string)                (* dict lookup *)
  | ColumnNotFoundError (c : string)     (* polars *)
  | DuplicateError (c : string)          (* polars *)
  | InvalidOperationError (c : string)   (* polars *)
  | BinderException (msg : string)       (* duckdb: unknown column, arity *)
  | CatalogException (t : string)        (* duckdb: unknown table *)
  | IOException (msg : string)           (* duckdb.IOException *)
  | TypeError (msg : string)
  | ValueError (msg : string)
  | PyException (msg : string)           (* raise Exception(msg) *)
  | OverflowError (msg : string).

Inductive result (A : Type) :=
  | Ok (a : A)
  | Raise (e : exn).
Arguments Ok {A} a.
Arguments Raise {A} e.

Definition bind {A B} (m : result A) (k : A → result B) : result B :=
  match m with Ok a => k a | Raise e => Raise e end.

Notation "x ←! m ;; k" := (bind m (λ x, k))
  (at level 100, m at next level, right associativity).

(** [try: m except Exception: h] *)
Definition try_except {A} (m : result A) (h : exn → result A) : result A :=
  match m with Ok a => Ok a | Raise e => h e end.

Definition require (b : bool) (e : exn) : result unit :=
  if b then Ok () else Raise e.

(** ** The store *)

Definition commitmentIndex : string := "commitmentIndex".

(** The key column of a list of rows. *)
Definition key_cells (rs : list row) : list cell := column commitmentIndex rs.

(** No two rows share a [commitmentIndex]. *)
Definition unique_keys (rs : list row) : Prop := NoDup (key_cells rs).

(** Every row carries a [commitmentIndex]. *)
Definition keyed (rs : list row) : Prop := Null ∉ key_cells rs.

(** [new LEFT JOIN existing USING(commitmentIndex)]: for one row of [new],
    the rows of [existing] it is paired with; [None] is the all-NULL right
    side that a left join produces when nothing matches. *)
Definition left_join_using (r : row) (existing : list row) : list (option row) :=
  match filter (λ e : row, sql_eq (r !!! commitmentIndex) (e !!! commitmentIndex) = true)
               existing with
  | [] => [None]
  | ms => Some <$> ms
  end.

(** [WHERE existing.commitmentIndex IS NULL] *)
Definition existing_key_is_null (o : option row) : bool :=
  match o with
  | None => true
  | Some e => is_null (e !!! commitmentIndex)
  end.

(** [SELECT new.* FROM df_temp AS new LEFT JOIN t AS existing
     USING(commitmentIndex) WHERE existing.commitmentIndex IS NULL] *)
Definition anti_join (new existing : list row) : list row :=
  r ← new;
  o ← left_join_using r existing;
  if existing_key_is_null o then [r] else [].

(** [INSERT INTO t SELECT ...] binds the selected columns to the table's
    columns by position. *)
Definition rebind (tcols dcols : list string) (r : row) : row :=
  list_to_map (zip tcols ((λ c, r !!! c) <$> dcols)).

Definition write_to_duckdb (df : DataFrame) (table_name : string)
    (db : gmap string DataFrame) : gmap string DataFrame * result string :=
  if is_empty df then
    (db, Ok (table_name +:+ ": no new data"))
  else
    match db !! table_name with
    | None =>
        (<[table_name := df]> db,
         Ok (table_name +:+ ": created table with " +:+ pretty (height df) +:+ " records"))
    | Some t =>
        if negb (bool_decide (commitmentIndex ∈ columns df)
                 && bool_decide (commitmentIndex ∈ columns t)) then
          (db, Raise (BinderException "column commitmentIndex not found"))
        else if negb (bool_decide (length (columns df) = length (columns t))) then
          (db, Raise (BinderException "table and SELECT differ in column count"))
        else
          let fresh := anti_join (rows df) (rows t) in
          (<[table_name := mkDF (columns t)
                                (rows t ++ (rebind (columns t) (columns df) <$> fresh))]> db,
           Ok (table_name +:+ ": inserted " +:+ pretty (height df) +:+ " new records"))
    end.

(** ** The cursor *)

(** [SELECT MAX(col)]: NULL cells are skipped; NULL when nothing is left.
    Block columns are integer columns; any other cell is a type error. *)
Fixpoint sql_max (cs : list cell) : result cell :=
  match cs with
  | [] => Ok Null
  | c :: cs' =>
      m ←! sql_max cs' ;;
      match c, m with
      | Null, _ => Ok m
      | Int z, Null => Ok (Int z)
      | Int z, Int z' => Ok (Int (Z.max z z'))
      | _, _ => Raise (TypeError "MAX over a non-integer block column")
      end
  end.

Definition get_latest_block_number (table_name block_column : string)
    (db : gmap string DataFrame) : result Z :=
  match db !! table_name with
  | None => Ok 0
  | Some t =>
      _ ←! require (bool_decide (block_column ∈ columns t))
                   (BinderException block_column) ;;
      m ←! sql_max (column block_column (rows t)) ;;
      match m with
      | Null => Ok 0
      | Int z => Ok z
      | _ => Raise (TypeError "int() of a non-integer")
      end
  end.

(** [from_block = latest_blocks.get(table_name, 0) + 1] in [get_events]. *)
Definition from_block (latest_blocks : gmap string Z) (table_name : string) : Z :=
  default 0 (latest_blocks !! table_name) + 1.

(** ** Polars operators used by the join engine *)

(** Expressions: [pl.col(c)], [pl.lit(s)] and [e1 + e2]. *)
Inductive expr :=
  | col (c : string)
  | lit (s : string)
  | add (e1 e2 : expr).

Fixpoint expr_columns (e : expr) : list string :=
  match e with
  | col c => [c]
  | lit _ => []
  | add e1 e2 => expr_columns e1 ++ expr_columns e2
  end.

(** [+] on cells: concatenation of strings, NULL is absorbing. *)
Definition add_cells (a b : cell) : result cell :=
  match a, b with
  | Null, _ | _, Null => Ok Null
  | Str s1, Str s2 => Ok (Str (s1 +:+ s2))
  | Int z1, Int z2 => Ok (Int (z1 + z2))
  | _, _ => Raise (InvalidOperationError "arithmetic on string and non-string")
  end.

Fixpoint eval (e : expr) (r : row) : result cell :=
  match e with
  | col c => Ok (r !!! c)
  | lit s => Ok (Str s)
  | add e1 e2 => a ←! eval e1 r ;; b ←! eval e2 r ;; add_cells a b
  end.

(** The first name of [names] that is not a column of the frame. *)
Definition first_missing (names cols : list string) : option string :=
  head (filter (λ c, c ∉ cols) names).

Definition check_columns (names cols : list string) : result unit :=
  match first_missing names cols with
  | Some c => Raise (ColumnNotFoundError c)
  | None => Ok ()
  end.

Fixpoint mapM {A B} (f : A → result B) (l : list A) : result (list B) :=
  match l with
  | [] => Ok []
  | a :: l' => b ←! f a ;; bs ←! mapM f l' ;; Ok (b :: bs)
  end.

(** [df.with_columns(e.alias(name))]: replaces the column [name] when the
    frame has one, appends it otherwise. *)
Definition with_columns (name : string) (e : expr) (df : DataFrame) : result DataFrame :=
  _ ←! check_columns (expr_columns e) (columns df) ;;
  rs ←! mapM (λ r : row, c ←! eval e r ;; Ok (<[name := c]> r)) (rows df) ;;
  Ok (mkDF (if bool_decide (name ∈ columns df) then columns df
            else columns df ++ [name]) rs).

(** [df.select(names...)] *)
Definition project (names : list string) (r : row) : row :=
  list_to_map ((λ c, (c, r !!! c)) <$> names).

Definition select (names : list string) (df : DataFrame) : result DataFrame :=
  _ ←! check_columns names (columns df) ;;
  _ ←! require (bool_decide (NoDup names)) (DuplicateError "select") ;;
  Ok (mkDF names (project names <$> rows df)).

(** [left.join(right, on=key, how="inner")]: the key column appears once; a
    column of [right] whose name [left] already has gets the suffix
    ["_right"].  Polars leaves the row order of an inner join open; the rows
    are listed here in the order of [left]. *)
Definition right_name (lcols : list string) (c : string) : string :=
  if bool_decide (c ∈ lcols) then c +:+ "_right" else c.

Definition merge_rows (lcols others : list string) (l r : row) : row :=
  foldr (λ c acc, <[right_name lcols c := r !!! c]> acc) l others.

Definition join_inner (left right : DataFrame) (on : string) : result DataFrame :=
  _ ←! check_columns [on] (columns left) ;;
  _ ←! check_columns [on] (columns right) ;;
  let others := filter (λ c, c ≠ on) (columns right) in
  let cols := columns left ++ (right_name (columns left) <$> others) in
  _ ←! require (bool_decide (NoDup cols)) (DuplicateError "join") ;;
  Ok (mkDF cols
        (l ← rows left;
         r ← filter (λ r : row, sql_eq (l !!! on) (r !!! on) = true) (rows right);
         [merge_rows (columns left) others l r])).

(** ** The join engine *)

(** [dataframes[name]] *)
Definition getitem (dataframes : gmap string DataFrame) (name : string) : result DataFrame :=
  match dataframes !! name with
  | Some df => Ok df
  | None => Raise (KeyError name)
  end.

Definition commitments_columns : list string :=
  [ "block_number_encrypted"; "timestamp"; "txnHash"; "bid"; "commiter";
    "bidder"; "isSlash"; "decayStartTimeStamp"; "decayEndTimeStamp";
    "dispatchTimestamp"; "commitmentHash"; "commitmentIndex";
    "commitmentDigest"; "commitmentSignature"; "revertingTxHashes";
    "bidHash"; "bidSignature"; "sharedSecretKey" ].

Definition join_dataframes (dataframes : gmap string DataFrame) : result DataFrame :=
  encrypted_stores_df ←! getitem dataframes "encrypted_stores" ;;
  commit_stores_df ←! getitem dataframes "commit_stores" ;;
  commits_processed_df ←! getitem dataframes "commits_processed" ;;
  j1 ←! join_inner encrypted_stores_df commit_stores_df commitmentIndex ;;
  j2 ←! with_columns "txnHash" (add (lit "0x") (col "txnHash")) j1 ;;
  sel ←! select [commitmentIndex; "isSlash"] commits_processed_df ;;
  j3 ←! join_inner j2 sel commitmentIndex ;;
  j4 ←! with_columns "block_number_encrypted" (col "block_number") j3 ;;
  select commitments_columns j4.

(** ** Reading with retries *)

(** What a call leaves behind besides its result.  Delays are Python floats
    (IEEE 754 binary64). *)
Inductive event :=
  | EConnect                                    (* duckdb.connect(db_filename) *)
  | ELogWarning (attempt : nat) (delay : float) (* "Lock detected ... Retrying" *)
  | ESleep (delay : float)                      (* time.sleep(delay) returned *)
  | ELogError (msg : string).

(** The number of seconds a finite float stands for. *)
Definition seconds (d : float) : Qc :=
  match Prim2SF d with
  | S754_finite s m e =>
      let v := (inject_Z (Z.pos m)
                * (if 0 <=? e then inject_Z (2 ^ e) else / inject_Z (2 ^ (- e))))%Q in
      Q2Qc (if s then - v else v)%Q
  | _ => 0%Qc
  end.

(** What the Python runtime contributes to the readers: [str.lower], which
    follows the Unicode tables of the interpreter, and [time.sleep], which
    refuses some delays and otherwise depends on the platform. *)
Record runtime := mkRuntime {
  str_lower : string → string;
  time_sleep : float → result unit
}.

(** [needle in hay] *)
Definition contains (needle hay : string) : bool :=
  bool_decide (is_Some (String.index 0 needle hay)).

(** ["Conflicting lock" in str(e) or "database is locked" in str(e).lower()] *)
Definition is_lock_conflict (py : runtime) (msg : string) : bool :=
  contains "Conflicting lock" msg || contains "database is locked" (str_lower py msg).

Section retry.
Context {A : Type}.
Variable py : runtime.
(** [oracle k]: what the [k]-th connection attempt of the call runs into;
    [None] when the database opens. *)
Variable oracle : nat → option exn.
(** The body of the [with] block once the connection is open. *)
Variable body : result A.
Variable terminal : string.
Variable backoff_factor : float.

(** The [while attempt < max_retries] loop of [read_db] and
    [read_single_table], which differ in the body and in the final message
    only.  [remaining] is [max_retries - attempt]: the loop runs while it is
    positive and every retry decreases it by one.  An exception of
    [time.sleep] is raised inside the [except] block and leaves the
    function. *)
Fixpoint retry_loop (remaining : nat) (attempt : nat) (delay : float)
    : list event * result A :=
  match remaining with
  | O => ([], Raise (PyException terminal))
  | S remaining' =>
      match oracle attempt with
      | None => ([EConnect], body)
      | Some (IOException msg) =>
          if is_lock_conflict py msg then
            match time_sleep py delay with
            | Ok _ =>
                let '(tr, r) :=
                  retry_loop remaining' (S attempt) (delay * backoff_factor)%float in
                (EConnect :: ELogWarning (S attempt) delay :: ESleep delay :: tr, r)
            | Raise e => ([EConnect; ELogWarning (S attempt) delay], Raise e)
            end
          else
            ([EConnect; ELogError msg], Raise (IOException msg))
      | Some e => ([EConnect], Raise e)
      end
  end.

(** The same loop written with the counter and the test of the source, and
    a bound on the number of iterations; the two loops agree as soon as the
    bound exceeds [max_retries - attempt] ([retry_while_loop]). *)
Fixpoint retry_while (fuel : nat) (max_retries attempt : Z) (delay : float)
    : option (list event * result A) :=
  match fuel with
  | O => None
  | S fuel' =>
      if bool_decide (attempt < max_retries) then
        match oracle (Z.to_nat attempt) with
        | None => Some ([EConnect], body)
        | Some (IOException msg) =>
            if is_lock_conflict py msg then
              match time_sleep py delay with
              | Ok _ =>
                  match retry_while fuel' max_retries (attempt + 1)
                          (delay * backoff_factor)%float with
                  | Some (tr, r) =>
                      Some (EConnect :: ELogWarning (Z.to_nat (attempt + 1)) delay
                              :: ESleep delay :: tr, r)
                  | None => None
                  end
              | Raise e =>
                  Some ([EConnect; ELogWarning (Z.to_nat (attempt + 1)) delay], Raise e)
              end
            else
              Some ([EConnect; ELogError msg], Raise (IOException msg))
        | Some e => Some ([EConnect], Raise e)
        end
      else Some ([], Raise (PyException terminal))
  end.
End retry.

(** DuckDB compares the names of tables without regard to the case of the
    letters A to Z. *)
Definition lower_ascii (a : ascii) : ascii :=
  let n := nat_of_ascii a in
  if bool_decide (65 ≤ n ≤ 90)%nat then ascii_of_nat (n + 32) else a.

Fixpoint ascii_lower (s : string) : string :=
  match s with
  | EmptyString => EmptyString
  | String a s' => String (lower_ascii a) (ascii_lower s')
  end.

Definition same_table (table : string) (entry : string * DataFrame) : bool :=
  bool_decide (ascii_lower entry.1 = ascii_lower table).

(** [conn.execute(f"SELECT * FROM {table}").pl()] for the name of a table. *)
Definition select_from (db : gmap string DataFrame) (table : string)
    : result DataFrame :=
  match db !! table with
  | Some df => Ok df
  | None =>
      match List.find (same_table table) (map_to_list db) with
      | Some (_, df) => Ok df
      | None => Raise (CatalogException table)
      end
  end.

(** The [for table in tables] loop of [read_db]. *)
Fixpoint read_tables (db : gmap string DataFrame) (tables : list string)
    (dataframes : gmap string DataFrame) : result (gmap string DataFrame) :=
  match tables with
  | [] => Ok dataframes
  | table :: tables' =>
      match select_from db table with
      | Raise e => Raise e
      | Ok df => read_tables db tables' (<[table := df]> dataframes)
      end
  end.

Definition read_db_failure (db_filename : string) (max_retries : Z) : string :=
  "Failed to read from " +:+ db_filename +:+ " after " +:+ pretty max_retries
  +:+ " attempts due to lock conflicts.".

Definition read_db (py : runtime) (oracle : nat → option exn)
    (db : gmap string DataFrame) (db_filename : string) (tables : list string)
    (max_retries : Z) (initial_delay backoff_factor : float)
    : list event * result (gmap string DataFrame) :=
  retry_loop py oracle (read_tables db tables ∅)
    (read_db_failure db_filename max_retries) backoff_factor
    (Z.to_nat max_retries) 0%nat initial_delay.

Definition read_single_table_failure (db_filename table : string) (max_retries : Z)
    : string :=
  "Failed to read table '" +:+ table +:+ "' from " +:+ db_filename +:+ " after "
  +:+ pretty max_retries +:+ " attempts due to lock conflicts.".

Definition read_single_table (py : runtime) (oracle : nat → option exn)
    (db : gmap string DataFrame) (db_filename table : string)
    (max_retries : Z) (initial_delay backoff_factor : float)
    : list event * result DataFrame :=
  retry_loop py oracle (select_from db table)
    (read_single_table_failure db_filename table max_retries) backoff_factor
    (Z.to_nat max_retries) 0%nat initial_delay.

(** Defaults of the keyword arguments. *)
Definition default_max_retries : Z := 5.
Definition default_initial_delay : float := 1%float.
Definition default_backoff_factor : float := 2%float.

(** ** Loading and joining *)

Definition load_and_join_data (py : runtime) (oracle : nat → option exn)
    (db : gmap string DataFrame) (db_filename : string) (tables : list string)
    : list event * result DataFrame :=
  let '(tr, r) := read_db py oracle db db_filename tables
                    default_max_retries default_initial_delay default_backoff_factor in
  (tr, try_except (dataframes ←! r ;; join_dataframes dataframes)
                  (λ _, Ok empty_frame)).

(** Trace observations. *)
Fixpoint attempts (tr : list event) : nat :=
  match tr with
  | [] => 0%nat
  | EConnect :: tr' => S (attempts tr')
  | _ :: tr' => attempts tr'
  end.

Fixpoint total_wait (tr : list event) : Qc :=
  match tr with
  | [] => 0%Qc
  | ESleep d :: tr' => (seconds d + total_wait tr')%Qc
  | _ :: tr' => total_wait tr'
  end.

(** [initial_delay * (1 + f + ... + f^(n-1))] *)
Definition geometric (initial_delay f : Qc) (n : nat) : Qc :=
  (initial_delay * foldr Qcplus 0 ((λ i, f ^ i) <$> seq 0 n))%Qc.

(** The delays of [n] retries in a row, as the loop computes them:
    [delay *= backoff_factor] in floating point. *)
Fixpoint delays (delay backoff_factor : float) (n : nat) : list float :=
  match n with
  | O => []
  | S n' => delay :: delays (delay * backoff_factor)%float backoff_factor n'
  end.

Definition sum_seconds (ds : list float) : Qc :=
  foldr Qcplus 0%Qc (seconds <$> ds).

(** No rounding in the first [n] products. *)
Definition exact_delays (delay backoff_factor : float) (n : nat) : Prop :=
  ∀ k d, delays delay backoff_factor n !! k = Some d →
    seconds d = (seconds delay * seconds backoff_factor ^ k)%Qc.

(** ** One cycle of the orchestrator ([get_events]) *)

Record table_spec := mkTable {
  table_name : string;
  block_column : string;
  event_config : string
}.

Definition tables : list table_spec :=
  [ mkTable "commit_stores" "block_number" "OpenedCommitmentStored";
    mkTable "encrypted_stores" "block_number" "UnopenedCommitmentStored";
    mkTable "commits_processed" "block_number" "CommitmentProcessed" ].

(** A Python dict keeps its keys in insertion order; assigning to a key
    that is there keeps its place. *)
Fixpoint dict_set {V} (k : string) (v : V) (d : list (string * V)) : list (string * V) :=
  match d with
  | [] => [(k, v)]
  | (k', v') :: d' =>
      if bool_decide (k' = k) then (k, v) :: d' else (k', v') :: dict_set k v d'
  end.

(** [latest_blocks[table["table_name"]] = get_latest_block_number(...)] *)
Fixpoint latest_block_numbers (ts : list table_spec) (db : gmap string DataFrame)
    (latest_blocks : gmap string Z) : result (gmap string Z) :=
  match ts with
  | [] => Ok latest_blocks
  | t :: ts' =>
      latest_block ←! get_latest_block_number (table_name t) (block_column t) db ;;
      latest_block_numbers ts' db (<[table_name t := latest_block]> latest_blocks)
  end.

(** The fetch loop.  [fetch event from_block] stands for
    [manager.execute_event_query(event_config, tx_data=True, from_block=...)];
    a [ValueError] is the "no data" signal and becomes an empty frame. *)
Fixpoint fetch_events (fetch : string → Z → result DataFrame) (ts : list table_spec)
    (latest_blocks : gmap string Z) (dataframes : list (string * DataFrame))
    : result (list (string * DataFrame)) :=
  match ts with
  | [] => Ok dataframes
  | t :: ts' =>
      df ←! try_except (fetch (event_config t) (from_block latest_blocks (table_name t)))
              (λ e, match e with
                    | ValueError _ => Ok empty_frame
                    | _ => Raise e
                    end) ;;
      fetch_events fetch ts' latest_blocks (dict_set (table_name t) df dataframes)
  end.

(** [for table_name, df in dataframes.items(): write_to_duckdb(...)]; a
    write that raises ends the loop, what was written before stays. *)
Fixpoint write_all (items : list (string * DataFrame)) (db : gmap string DataFrame)
    : gmap string DataFrame * result (list string) :=
  match items with
  | [] => (db, Ok [])
  | (name, df) :: items' =>
      match write_to_duckdb df name db with
      | (db1, Raise e) => (db1, Raise e)
      | (db1, Ok info) =>
          let '(db2, r) := write_all items' db1 in
          (db2, infos ←! r ;; Ok (info :: infos))
      end
  end.

Definition select_all (db : gmap string DataFrame) (table : string) : result DataFrame :=
  match db !! table with
  | Some df => Ok df
  | None => Raise (CatalogException table)
  end.

Definition load_data_from_duckdb (db : gmap string DataFrame)
    : result (gmap string DataFrame) :=
  encrypted_stores_df ←! select_all db "encrypted_stores" ;;
  commit_stores_df ←! select_all db "commit_stores" ;;
  commits_processed_df ←! select_all db "commits_processed" ;;
  Ok (<["commits_processed" := commits_processed_df]>
        (<["commit_stores" := commit_stores_df]>
           (<["encrypted_stores" := encrypted_stores_df]> ∅))).

Definition get_events (fetch : string → Z → result DataFrame)
    (db : gmap string DataFrame) : gmap string DataFrame * result DataFrame :=
  match latest_block_numbers tables db ∅ with
  | Raise e => (db, Raise e)
  | Ok latest_blocks =>
      match fetch_events fetch tables latest_blocks [] with
      | Raise e => (db, Raise e)
      | Ok dataframes =>
          match write_all dataframes db with
          | (db', Raise e) => (db', Raise e)
          | (db', Ok _) =>
              (db', loaded_dataframes ←! load_data_from_duckdb db' ;;
                    join_dataframes loaded_dataframes)
          end
      end
  end.

(** ** The poll loop *)

(** [while True: asyncio.run(get_events()); time.sleep(30)], followed for
    its first [n] cycles.  The event source may answer differently in every
    cycle ([source k] is the source during cycle [k]); a cycle that raises
    ends the process, as nothing catches the exception. *)
Fixpoint poll (source : nat → string → Z → result DataFrame) (n k : nat)
    (db : gmap string DataFrame) : gmap string DataFrame * list event * option exn :=
  match n with
  | O => (db, [], None)
  | S n' =>
      match get_events (source k) db with
      | (db1, Raise e) => (db1, [], Some e)
      | (db1, Ok _) =>
          let '(db2, tr, r) := poll source n' (S k) db1 in
          (db2, ESleep 30%float :: tr, r)
      end
  end.

(** ** Predicates and sample data used in the statements *)

(** A row is fresh when no stored row has its key. *)
Definition fresh_key (existing : list row) (r : row) : Prop :=
  filter (λ e : row, sql_eq (r !!! commitmentIndex) (e !!! commitmentIndex) = true)
         existing = [].



(** The attempts [a], [a+1], ..., [a+n-1] all run into a lock conflict. *)
Definition locked (py : runtime) (oracle : nat → option exn) (a n : nat) : Prop :=
  ∀ k, (k < n)%nat →
    ∃ msg, oracle (a + k)%nat = Some (IOException msg)
           ∧ is_lock_conflict py msg = true.

(** [time.sleep] lets every delay in [ds] pass. *)
Definition slept (py : runtime) (ds : list float) : Prop :=
  ∀ d, d ∈ ds → time_sleep py d = Ok ().

(** A runtime for the examples: messages in ASCII, for which [str.lower]
    changes the letters A to Z only, and the checks CPython 3.11 makes on the
    argument of [time.sleep] before it suspends the thread (not a number, out
    of the range of a 64-bit count of nanoseconds, negative). *)
Definition checked_sleep (d : float) : result unit :=
  if PrimFloat.is_nan d then Raise (ValueError "Invalid value NaN (not a number)")
  else if (0x1p63 <? PrimFloat.abs (d * 1e9))%float
       then Raise (OverflowError "timestamp too large to convert to C _PyTime_t")
  else if (d <? 0)%float then Raise (ValueError "sleep length must be non-negative")
  else Ok ().

Definition sample_runtime : runtime := mkRuntime ascii_lower checked_sleep.

(** Sample rows shared by the examples below. *)
Definition keyed_row (k : cell) (block : Z) : row :=
  {[ commitmentIndex := k; "block_number" := Int block ]}.
Definition sample_columns : list string := [commitmentIndex; "block_number"].

(** Sample tables: two commitments present in all three tables, a third one
    present in [commit_stores] only.  The first [txnHash] already carries
    the prefix. *)
Definition sample_encrypted : DataFrame :=
  mkDF [commitmentIndex; "block_number"; "timestamp"; "commiter";
        "commitmentDigest"; "commitmentSignature"; "dispatchTimestamp"]
    [ {[ commitmentIndex := Str "c1"; "block_number" := Int 10;
         "timestamp" := Int 1000; "commiter" := Str "p1";
         "commitmentDigest" := Str "d1"; "commitmentSignature" := Str "s1";
         "dispatchTimestamp" := Int 1001 ]};
      {[ commitmentIndex := Str "c2"; "block_number" := Int 11;
         "timestamp" := Int 1100; "commiter" := Str "p2";
         "commitmentDigest" := Str "d2"; "commitmentSignature" := Str "s2";
         "dispatchTimestamp" := Int 1101 ]} ].

Definition opened_row (k txn : string) (block : Z) : row :=
  {[ commitmentIndex := Str k; "block_number" := Int block;
     "bid" := Int 5; "bidder" := Str "b"; "txnHash" := Str txn;
     "decayStartTimeStamp" := Int 1; "decayEndTimeStamp" := Int 2;
     "commitmentHash" := Str "h"; "revertingTxHashes" := Str "";
     "bidHash" := Str "bh"; "bidSignature" := Str "bs";
     "sharedSecretKey" := Str "k" ]}.

Definition sample_commits : DataFrame :=
  mkDF [commitmentIndex; "block_number"; "bid"; "bidder"; "txnHash";
        "decayStartTimeStamp"; "decayEndTimeStamp"; "commitmentHash";
        "revertingTxHashes"; "bidHash"; "bidSignature"; "sharedSecretKey"]
    [ opened_row "c1" "0xaa" 20; opened_row "c2" "bb" 21; opened_row "c3" "cc" 22 ].

Definition sample_processed : DataFrame :=
  mkDF [commitmentIndex; "isSlash"; "block_number"]
    [ {[ commitmentIndex := Str "c1"; "isSlash" := Bool false; "block_number" := Int 30 ]};
      {[ commitmentIndex := Str "c2"; "isSlash" := Bool true; "block_number" := Int 31 ]} ].

Definition sample_db : gmap string DataFrame :=
  {[ "encrypted_stores" := sample_encrypted;
     "commit_stores" := sample_commits;
     "commits_processed" := sample_processed ]}.

Definition sample_view : DataFrame :=
  match join_dataframes sample_db with
  | Ok out => out
  | Raise _ => empty_frame
  end.

Ltac in_list := repeat first [ by left | right ].



(** A stored table and a batch that overlaps it. *)
Definition stored_commits : DataFrame :=
  mkDF sample_columns [keyed_row (Str "a") 7].
Definition incoming_commits : DataFrame :=
  mkDF sample_columns [keyed_row (Str "a") 7; keyed_row (Str "b") 9].
Definition stored_db : gmap string DataFrame :=
  {[ "commit_stores" := stored_commits ]}.

(** An event source with news for [commit_stores] only. *)
Definition sample_fetch (event : string) (from : Z) : result DataFrame :=
  if bool_decide (event = "OpenedCommitmentStored") then Ok incoming_commits
  else Raise (ValueError "no events in range").

(** An event source that serves the three sample tables. *)
Definition sample_source (event : string) (from : Z) : result DataFrame :=
  if bool_decide (event = "OpenedCommitmentStored") then Ok sample_commits
  else if bool_decide (event = "UnopenedCommitmentStored") then Ok sample_encrypted
  else if bool_decide (event = "CommitmentProcessed") then Ok sample_processed
  else Raise (ValueError "no events in range").

(** Two lock conflicts, then the database opens. *)
Definition two_conflicts (k : nat) : option exn :=
  if bool_decide (k < 2)%nat
  then Some (IOException "IO Error: Could not set lock on file: Conflicting lock is held")
  else None.

(** One lock conflict, then a full disk. *)
Definition conflict_then_disk_full (k : nat) : option exn :=
  if bool_decide (k < 1)%nat
  then Some (IOException "IO Error: Could not set lock on file: Conflicting lock is held")
  else Some (IOException "IO Error: No space left on device").

(** The sample store with its [commit_stores] written a second time, and an
    event source that fails for [commits_processed]. *)
Definition broken_source (event : string) (from : Z) : result DataFrame :=
  if bool_decide (event = "CommitmentProcessed")
  then Raise (IOException "connection reset")
  else sample_source event from.



(** One lock conflict, then the database opens. *)
Definition one_conflict (k : nat) : option exn :=
  if bool_decide (k < 1)%nat
  then Some (IOException "IO Error: Could not set lock on file: Conflicting lock is held")
  else None.

(** The sample store with a single opened commitment whose [txnHash] is
    NULL. *)
Definition null_hash_db : gmap string DataFrame :=
  <["commit_stores" :=
      mkDF (columns sample_commits) [<["txnHash" := Null]> (opened_row "c1" "" 20)]]>
    sample_db.

Definition null_hash_view : DataFrame :=
  match join_dataframes null_hash_db with
  | Ok out => out
  | Raise _ => empty_frame
  end.


(** * Properties *)

(** ** Cells and the result monad *)

Lemma sql_eq_true (a b : cell) : sql_eq a b = true ↔ a = b ∧ a ≠ Null.
Proof.
  unfold sql_eq. split.
  - intros H. apply andb_true_iff in H as [H1 H3].
    apply andb_true_iff in H1 as [H1 _]. apply bool_decide_eq_true in H3.
    split; [done|]. intros ->. done.
  - intros [<- Hn]. destruct a; [done|..]; simpl; by apply bool_decide_eq_true.
Qed.

Lemma sql_eq_refl (a : cell) : a ≠ Null → sql_eq a a = true.
Proof. intros. by apply sql_eq_true. Qed.

Lemma bind_ok {A B} (m : result A) (k : A → result B) (b : B) :
  bind m k = Ok b ↔ ∃ a, m = Ok a ∧ k a = Ok b.
Proof.
  destruct m; simpl; split.
  - eauto.
  - by intros (? & [= ->] & ?).
  - done.
  - by intros (? & ? & ?).
Qed.

Lemma require_ok (b : bool) (e : exn) (u : unit) : require b e = Ok u ↔ b = true.
Proof. destruct b, u; simpl; split; congruence. Qed.

Lemma frame_eta (df : DataFrame) : mkDF (columns df) (rows df) = df.
Proof. by destruct df. Qed.

Lemma column_app (c : string) (rs1 rs2 : list row) :
  column c (rs1 ++ rs2) = column c rs1 ++ column c rs2.
Proof. apply fmap_app. Qed.

Lemma elem_of_column (c : string) (rs : list row) (r : row) :
  r ∈ rs → r !!! c ∈ column c rs.
Proof. intros. unfold column. by apply (list_elem_of_fmap_2 (λ r : row, r !!! c)). Qed.

(** ** The anti-join *)

Lemma fresh_key_spec (existing : list row) (r : row) :
  fresh_key existing r ↔
  r !!! commitmentIndex = Null ∨ r !!! commitmentIndex ∉ key_cells existing.
Proof.
  unfold fresh_key, key_cells. induction existing as [|e es IH]; simpl.
  - split; [intros _; right; apply not_elem_of_nil | done].
  - rewrite filter_cons. rewrite not_elem_of_cons.
    destruct (decide (sql_eq (r !!! commitmentIndex) (e !!! commitmentIndex) = true))
      as [Heq|Hne].
    + apply sql_eq_true in Heq as [Heq Hnn].
      split; [done | intros [?|[? _]]; congruence].
    + rewrite IH. rewrite sql_eq_true in Hne.
      split.
      * intros [?|?]; [by left|].
        destruct (decide (r !!! commitmentIndex = Null)); [by left|right].
        split; [|done]. intros Heq. apply Hne. done.
      * intros [?|[_ ?]]; [by left | by right].
Qed.

Lemma anti_join_filter (new existing : list row) :
  anti_join new existing = filter (fresh_key existing) new.
Proof.
  unfold anti_join. induction new as [|r new IH]; [done|].
  rewrite bind_cons, IH, filter_cons. clear IH.
  unfold left_join_using, fresh_key.
  set (ms := filter _ existing).
  assert (Hms : ∀ e : row, e ∈ ms → is_null (e !!! commitmentIndex) = false).
  { intros e [He _]%list_elem_of_filter. apply sql_eq_true in He as [<- Hn].
    by destruct (r !!! commitmentIndex). }
  destruct (decide (ms = [])) as [->|Hne]; [done|].
  destruct ms as [|e ms']; [done|]. clear Hne.
  replace ((Some <$> e :: ms') ≫= _) with (@nil row); [done|].
  generalize dependent (e :: ms'). clear. intros ms Hms.
  induction ms as [|e ms IH]; [done|].
  rewrite fmap_cons, bind_cons. simpl.
  rewrite (Hms e) by left. simpl. apply IH. intros. apply Hms. by right.
Qed.

(** Binding by position is binding by name when the layouts agree. *)
Lemma rebind_lookup (cols : list string) (r : row) (c : string) :
  c ∈ cols → rebind cols cols r !!! c = r !!! c.
Proof.
  unfold rebind. intros Hc.
  assert (H : (list_to_map (zip cols ((λ c, r !!! c) <$> cols)) : row) !! c
              = Some (r !!! c)); [|by rewrite lookup_total_alt, H].
  induction cols as [|a cols IH]; [by apply elem_of_nil in Hc|].
  simpl. destruct (decide (a = c)) as [->|Hne].
  - by rewrite lookup_insert_eq.
  - rewrite lookup_insert_ne by done. apply IH.
    apply elem_of_cons in Hc as [?|?]; [congruence|done].
Qed.

Lemma rebind_column (cols : list string) (rs : list row) (c : string) :
  c ∈ cols → column c (rebind cols cols <$> rs) = column c rs.
Proof.
  intros Hc. unfold column. rewrite <- list_fmap_compose.
  apply list_fmap_ext. intros _ r _. simpl. by apply rebind_lookup.
Qed.

Lemma anti_join_covered (new existing : list row) :
  keyed new →
  (∀ r : row, r ∈ new → r !!! commitmentIndex ∈ key_cells existing) →
  anti_join new existing = [].
Proof.
  intros Hk Hcov. rewrite anti_join_filter.
  apply elem_of_nil_inv. intros r [Hf Hr]%list_elem_of_filter.
  apply fresh_key_spec in Hf as [Hnull|Hnotin].
  - apply Hk. rewrite <- Hnull. by apply elem_of_column.
  - by apply Hnotin, Hcov.
Qed.

(** ** Writing *)

(** The three ways a write can go. *)
Lemma write_no_data (df : DataFrame) (table_name : string) (db : gmap string DataFrame) :
  is_empty df = true →
  write_to_duckdb df table_name db = (db, Ok (table_name +:+ ": no new data")).
Proof. unfold write_to_duckdb. by intros ->. Qed.

Lemma write_create (df : DataFrame) (table_name : string) (db : gmap string DataFrame) :
  is_empty df = false → db !! table_name = None →
  (write_to_duckdb df table_name db).1 = <[table_name := df]> db.
Proof. unfold write_to_duckdb. by intros -> ->. Qed.

Lemma write_append (df t : DataFrame) (table_name : string) (db : gmap string DataFrame) :
  is_empty df = false → db !! table_name = Some t →
  (write_to_duckdb df table_name db).1 = db
  ∨ (commitmentIndex ∈ columns df ∧ commitmentIndex ∈ columns t
     ∧ length (columns df) = length (columns t)
     ∧ (write_to_duckdb df table_name db).1 =
         <[table_name := mkDF (columns t)
             (rows t ++ (rebind (columns t) (columns df)
                           <$> anti_join (rows df) (rows t)))]> db).
Proof.
  unfold write_to_duckdb. intros -> ->.
  destruct (bool_decide (commitmentIndex ∈ columns df)) eqn:H1; [|by left].
  destruct (bool_decide (commitmentIndex ∈ columns t)) eqn:H2; [|by left].
  destruct (bool_decide (length (columns df) = length (columns t))) eqn:H3; [|by left].
  simpl. right.
  apply bool_decide_eq_true in H1, H2, H3. done.
Qed.

(** A write that inserts nothing leaves the store as it was. *)
Lemma write_nothing_fresh (df t : DataFrame) (table_name : string)
    (db : gmap string DataFrame) :
  db !! table_name = Some t →
  anti_join (rows df) (rows t) = [] →
  (write_to_duckdb df table_name db).1 = db.
Proof.
  intros Ht Hfresh.
  destruct (is_empty df) eqn:He; [by rewrite write_no_data|].
  destruct (write_append df t table_name db He Ht) as [?|(_ & _ & _ & ->)]; [done|].
  rewrite Hfresh. simpl. rewrite app_nil_r, frame_eta. by apply insert_id.
Qed.

(** After a write, every key of the written rows is in the table. *)
Lemma write_covers (df : DataFrame) (table_name : string) (db : gmap string DataFrame)
    (t1 : DataFrame) :
  is_empty df = false →
  keyed (rows df) →
  (∀ t, db !! table_name = Some t → columns df = columns t) →
  (write_to_duckdb df table_name db).1 ≠ db →
  (write_to_duckdb df table_name db).1 !! table_name = Some t1 →
  ∀ r : row, r ∈ rows df → r !!! commitmentIndex ∈ key_cells (rows t1).
Proof.
  intros He Hk Hcols Hchanged Ht1 r Hr.
  destruct (db !! table_name) as [t|] eqn:Ht.
  - destruct (write_append df t table_name db He Ht) as [?|(Hc & _ & _ & Hw)]; [done|].
    rewrite Hw, lookup_insert_eq in Ht1. injection Ht1 as <-. simpl.
    rewrite <- (Hcols t eq_refl). unfold key_cells.
    rewrite column_app, rebind_column, anti_join_filter by done.
    apply elem_of_app.
    destruct (decide (r !!! commitmentIndex ∈ column commitmentIndex (rows t)));
      [by left|right].
    apply elem_of_column, list_elem_of_filter. split; [|done].
    apply fresh_key_spec. by right.
  - rewrite write_create, lookup_insert_eq in Ht1 by done. injection Ht1 as <-.
    by apply elem_of_column.
Qed.

(** C1. Dedup-append is idempotent: for rows that carry a [commitmentIndex]
    and are laid out as the table they go to, writing the same row set a
    second time leaves the store exactly as the first write left it; in
    particular the second write inserts nothing and the height of the table
    is unchanged. *)
Theorem write_to_duckdb_idempotent (df : DataFrame) (table_name : string)
    (db : gmap string DataFrame) :
  keyed (rows df) →
  (∀ t, db !! table_name = Some t → columns df = columns t) →
  let db1 := (write_to_duckdb df table_name db).1 in
  let db2 := (write_to_duckdb df table_name db1).1 in
  db2 = db1
  ∧ (∀ t1 t2, db1 !! table_name = Some t1 → db2 !! table_name = Some t2 →
       t2 = t1 ∧ height t2 = height t1).
Proof.
  intros Hk Hcols db1 db2.
  assert (Hst : db2 = db1).
  { subst db2 db1.
    destruct (is_empty df) eqn:He; [by rewrite !write_no_data|].
    destruct (decide ((write_to_duckdb df table_name db).1 = db)) as [Hsame|Hchanged].
    { by rewrite Hsame. }
    assert (∃ t1, (write_to_duckdb df table_name db).1 !! table_name = Some t1)
      as [t1 Ht1].
    { destruct (db !! table_name) as [t|] eqn:Ht.
      - destruct (write_append df t table_name db He Ht) as [?|(_ & _ & _ & ->)];
          [done|]. rewrite lookup_insert_eq. eauto.
      - rewrite write_create, lookup_insert_eq by done. eauto. }
    apply (write_nothing_fresh df t1); [done|].
    apply anti_join_covered; [done|].
    by apply (write_covers df table_name db t1). }
  split; [done|]. intros t1 t2 H1 H2. rewrite Hst, H1 in H2. by injection H2 as <-.
Qed.

Lemma column_filter_NoDup (c : string) (P : row → Prop) `{!∀ r, Decision (P r)}
    (rs : list row) :
  NoDup (column c rs) → NoDup (column c (filter P rs)).
Proof.
  intros Hnd. apply (sublist_NoDup _ (column c rs)); [done|].
  unfold column. apply fmap_sublist, sublist_filter.
Qed.

(** C1, counterexample. A row without a key is never matched by the
    anti-join, so the second write appends it again. *)
Lemma write_twice_null_key :
  ¬ (∀ (df : DataFrame) (table_name : string) (db : gmap string DataFrame),
       is_empty df = false →
       (write_to_duckdb df table_name (write_to_duckdb df table_name db).1).1
       = (write_to_duckdb df table_name db).1).
Proof.
  intros H.
  specialize (H (mkDF sample_columns [keyed_row Null 7]) "commit_stores" ∅ eq_refl).
  apply (f_equal (λ db : gmap string DataFrame,
                    height <$> db !! "commit_stores")) in H.
  vm_compute in H. discriminate H.
Qed.

(** The layout matters as well: [INSERT ... SELECT] binds by position, so a
    batch whose columns come in another order stores its key under another
    column and is appended again. *)
Lemma write_twice_other_layout :
  let db : gmap string DataFrame :=
    {[ "commit_stores" :=
         mkDF [commitmentIndex; "bidder"]
              [ {[ commitmentIndex := Str "a"; "bidder" := Str "x" ]} ] ]} in
  let df := mkDF ["bidder"; commitmentIndex]
                 [ {[ commitmentIndex := Str "b"; "bidder" := Str "y" ]} ] in
  height <$> (write_to_duckdb df "commit_stores" db).1 !! "commit_stores"
    = Some 2%nat
  ∧ height <$> (write_to_duckdb df "commit_stores"
                  (write_to_duckdb df "commit_stores" db).1).1
                 !! "commit_stores" = Some 3%nat.
Proof. split; by vm_compute. Qed.

(** C5, counterexample. The create path stores the incoming rows as they
    are: two rows with one key stay two rows with one key. *)
Lemma write_keeps_incoming_duplicates :
  ¬ (∀ (df : DataFrame) (table_name : string) (db : gmap string DataFrame)
       (t1 : DataFrame),
       (write_to_duckdb df table_name db).1 !! table_name = Some t1 →
       unique_keys (rows t1)).
Proof.
  intros H.
  pose (df := mkDF sample_columns [keyed_row (Str "a") 7; keyed_row (Str "a") 8]).
  specialize (H df "commit_stores" ∅ df eq_refl).
  unfold unique_keys in H. vm_compute in H.
  inversion H as [|? ? Hin _]; subst. apply Hin. left.
Qed.

(** C5, as the code has it. Keys stay unique across a write when the
    incoming rows carry pairwise distinct keys, are laid out as the table,
    and the table (if it exists) had unique keys. *)
Theorem write_to_duckdb_unique_keys (df : DataFrame) (table_name : string)
    (db : gmap string DataFrame) (t1 : DataFrame) :
  unique_keys (rows df) →
  keyed (rows df) →
  (∀ t, db !! table_name = Some t →
        columns df = columns t ∧ unique_keys (rows t)) →
  (write_to_duckdb df table_name db).1 !! table_name = Some t1 →
  unique_keys (rows t1).
Proof.
  intros Hu Hk Ht Ht1.
  destruct (is_empty df) eqn:He.
  { rewrite write_no_data in Ht1 by done. by apply (Ht t1). }
  destruct (db !! table_name) as [t|] eqn:Hlook.
  - destruct (Ht t eq_refl) as [Hcols Hut].
    destruct (write_append df t table_name db He Hlook) as [Hw|(Hc & _ & _ & Hw)];
      rewrite Hw in Ht1.
    { rewrite Hlook in Ht1. by injection Ht1 as <-. }
    rewrite lookup_insert_eq in Ht1. injection Ht1 as <-. simpl.
    rewrite <- Hcols, anti_join_filter. unfold unique_keys, key_cells in *.
    rewrite column_app, rebind_column by done.
    apply NoDup_app.
    split; [done|]. split; [|by apply column_filter_NoDup].
    intros k Hkt (r & -> & [Hf Hr]%list_elem_of_filter)%list_elem_of_fmap.
    apply fresh_key_spec in Hf as [Hnull|Hnotin]; [|done].
    apply Hk. rewrite <- Hnull. by apply elem_of_column.
  - rewrite write_create, lookup_insert_eq in Ht1 by done. by injection Ht1 as <-.
Qed.

(** ** The cursor *)

Lemma sql_max_cons (c : cell) (cs : list cell) :
  sql_max (c :: cs) =
  (m ←! sql_max cs ;;
   match c, m with
   | Null, _ => Ok m
   | Int z, Null => Ok (Int z)
   | Int z, Int z' => Ok (Int (Z.max z z'))
   | _, _ => Raise (TypeError "MAX over a non-integer block column")
   end).
Proof. done. Qed.



(** [MAX] over a nullable integer column: NULL when the column has no
    value, the greatest value otherwise. *)
Lemma sql_max_nullable (cs : list cell) :
  (∀ c, c ∈ cs → c = Null ∨ ∃ z, c = Int z) →
  (sql_max cs = Ok Null ∧ ∀ z, Int z ∉ cs)
  ∨ (∃ m, sql_max cs = Ok (Int m) ∧ Int m ∈ cs ∧ ∀ z, Int z ∈ cs → z ≤ m).
Proof.
  induction cs as [|c cs IH]; intros Hcs.
  { left. split; [done|]. intros z. apply not_elem_of_nil. }
  rewrite sql_max_cons.
  destruct IH as [[-> Hnone]|(m & -> & Hm & Hub)].
  { intros c' Hc'. apply Hcs. by right. }
  - destruct (Hcs c) as [->|[z ->]]; [left| |]; simpl.
    + left. split; [done|]. intros z [[=]|Hz]%elem_of_cons. by apply (Hnone z).
    + right. exists z. split; [done|]. split; [left|].
      intros z' [[= ->]|Hz']%elem_of_cons; [lia|]. by apply Hnone in Hz'.
  - right. destruct (Hcs c) as [->|[z ->]]; [left| |]; simpl.
    + exists m. split; [done|]. split; [by right|].
      intros z [[=]|Hz]%elem_of_cons. by apply Hub.
    + exists (Z.max z m). split; [done|]. split.
      * destruct (Z.max_spec z m) as [[_ ->]|[_ ->]]; [by right|left].
      * intros z' [[= ->]|Hz']%elem_of_cons; [lia|]. apply Hub in Hz'. lia.
Qed.


(** A table whose block column holds no value has cursor 0 as well. *)
Lemma get_latest_block_number_no_value (table_name block_column : string)
    (db : gmap string DataFrame) (t : DataFrame) :
  db !! table_name = Some t → block_column ∈ columns t →
  (∀ c, c ∈ column block_column (rows t) → c = Null) →
  get_latest_block_number table_name block_column db = Ok 0.
Proof.
  unfold get_latest_block_number. intros -> Hc Hnull.
  rewrite bool_decide_eq_true_2 by done. simpl.
  destruct (sql_max_nullable (column block_column (rows t)))
    as [[-> _]|(m & _ & Hm & _)]; [by left; apply Hnull|done|].
  by apply Hnull in Hm.
Qed.


(** A write touches no table but its own. *)
Lemma write_other_table (df : DataFrame) (table_name other : string)
    (db : gmap string DataFrame) :
  other ≠ table_name →
  (write_to_duckdb df table_name db).1 !! other = db !! other.
Proof.
  intros Hne. destruct (is_empty df) eqn:He; [by rewrite write_no_data|].
  destruct (db !! table_name) as [t|] eqn:Ht.
  - destruct (write_append df t table_name db He Ht) as [->|(_ & _ & _ & ->)];
      [done|]. by rewrite lookup_insert_ne.
  - rewrite write_create by done. by rewrite lookup_insert_ne.
Qed.

Lemma from_block_insert (latest_blocks : gmap string Z) (table_name : string) (c : Z) :
  from_block (<[table_name := c]> latest_blocks) table_name = c + 1.
Proof. unfold from_block. by rewrite lookup_insert_eq. Qed.


(** ** Retries *)

Lemma geometric_0 (d f : Qc) : geometric d f 0 = 0%Qc.
Proof. unfold geometric. simpl. ring. Qed.

Lemma geometric_S (d f : Qc) (n : nat) :
  geometric d f (S n) = (d + geometric (d * f) f n)%Qc.
Proof.
  unfold geometric. rewrite <- cons_seq, fmap_cons, <- fmap_S_seq.
  rewrite <- list_fmap_compose. simpl.
  assert (H : foldr Qcplus 0%Qc ((λ i, (f ^ i)%Qc) ∘ S <$> seq 0 n)
              = (f * foldr Qcplus 0 ((λ i, f ^ i) <$> seq 0 n))%Qc).
  { generalize (seq 0 n). intros l. induction l as [|i l IH].
    - simpl. ring.
    - rewrite !fmap_cons. cbn [foldr]. rewrite IH. unfold compose. simpl. ring. }
  rewrite H. ring.
Qed.

Lemma sum_seconds_cons (d : float) (ds : list float) :
  sum_seconds (d :: ds) = (seconds d + sum_seconds ds)%Qc.
Proof. done. Qed.

Lemma slept_cons (py : runtime) (d : float) (ds : list float) :
  slept py (d :: ds) ↔ time_sleep py d = Ok () ∧ slept py ds.
Proof.
  unfold slept. split.
  - intros H. split; [apply H; left|intros x Hx; apply H; by right].
  - intros [H0 H] x [->|Hx]%elem_of_cons; auto.
Qed.

Lemma slept_fewer (py : runtime) (f : float) (m : nat) :
  ∀ (n : nat) (d : float),
    (m ≤ n)%nat → slept py (delays d f n) → slept py (delays d f m).
Proof.
  induction m as [|m IH]; intros n d Hle H; simpl.
  - intros x Hx. by apply elem_of_nil in Hx.
  - destruct n as [|n]; [lia|]. simpl in H. apply slept_cons in H as [H0 H].
    apply slept_cons. split; [done|]. apply (IH n); [lia|done].
Qed.

Lemma delays_geometric (f : float) (n : nat) :
  ∀ (d : float) (q : Qc),
    (∀ k x, delays d f n !! k = Some x → seconds x = (q * seconds f ^ k)%Qc) →
    sum_seconds (delays d f n) = geometric q (seconds f) n.
Proof.
  induction n as [|n IH]; intros d q H; simpl.
  - by rewrite geometric_0.
  - rewrite sum_seconds_cons, geometric_S.
    rewrite (IH (d * f)%float (q * seconds f)%Qc).
    + f_equal. rewrite (H 0%nat d eq_refl). simpl. ring.
    + intros k x Hk. rewrite (H (S k) x Hk). simpl. ring.
Qed.

Lemma exact_delays_geometric (d f : float) (n : nat) :
  exact_delays d f n →
  sum_seconds (delays d f n) = geometric (seconds d) (seconds f) n.
Proof. intros H. by apply delays_geometric. Qed.

Section retry_facts.
Context {A : Type}.
Variable py : runtime.
Variable oracle : nat → option exn.
Variable body : result A.
Variable terminal : string.
Variable backoff_factor : float.

Lemma locked_S (a n : nat) :
  locked py oracle a (S n) →
  (∃ msg, oracle a = Some (IOException msg) ∧ is_lock_conflict py msg = true)
  ∧ locked py oracle (S a) n.
Proof.
  intros H. split.
  - destruct (H 0%nat) as (msg & Hm & ?); [lia|]. rewrite Nat.add_0_r in Hm. eauto.
  - intros k Hk. destruct (H (S k)) as (msg & Hm & ?); [lia|].
    rewrite Nat.add_succ_r in Hm. eauto.
Qed.

Lemma retry_loop_succeeds (n : nat) :
  ∀ (remaining a : nat) (d : float),
    locked py oracle a n → slept py (delays d backoff_factor n) →
    oracle (a + n) = None → (n < remaining)%nat →
    ∃ tr, retry_loop py oracle body terminal backoff_factor remaining a d = (tr, body)
          ∧ attempts tr = S n
          ∧ total_wait tr = sum_seconds (delays d backoff_factor n).
Proof.
  induction n as [|n IH]; intros remaining a d Hlock Hsleep Hopen Hlt;
    (destruct remaining as [|remaining]; [lia|]); simpl.
  - rewrite Nat.add_0_r in Hopen. rewrite Hopen. by eexists.
  - apply locked_S in Hlock as [(msg & -> & ->) Hlock].
    simpl in Hsleep. apply slept_cons in Hsleep as [-> Hsleep].
    rewrite Nat.add_succ_r in Hopen.
    destruct (IH remaining (S a) (d * backoff_factor)%float) as (tr & -> & Hn & Hw);
      [done|done|done|lia|].
    eexists. split; [done|]. simpl. by rewrite Hn, Hw.
Qed.

Lemma retry_loop_exhausts (remaining : nat) :
  ∀ (a : nat) (d : float),
    locked py oracle a remaining → slept py (delays d backoff_factor remaining) →
    ∃ tr, retry_loop py oracle body terminal backoff_factor remaining a d
            = (tr, Raise (PyException terminal))
          ∧ attempts tr = remaining
          ∧ total_wait tr = sum_seconds (delays d backoff_factor remaining).
Proof.
  induction remaining as [|remaining IH]; intros a d Hlock Hsleep; simpl.
  - by eexists.
  - apply locked_S in Hlock as [(msg & -> & ->) Hlock].
    simpl in Hsleep. apply slept_cons in Hsleep as [-> Hsleep].
    destruct (IH (S a) (d * backoff_factor)%float) as (tr & -> & Hn & Hw); [done|done|].
    eexists. split; [done|]. simpl. by rewrite Hn, Hw.
Qed.

Lemma retry_while_loop (max_retries : Z) (fuel : nat) :
  ∀ (attempt : Z) (delay : float),
    0 ≤ attempt → (Z.to_nat (max_retries - attempt) < fuel)%nat →
    retry_while py oracle body terminal backoff_factor fuel max_retries attempt delay
    = Some (retry_loop py oracle body terminal backoff_factor
              (Z.to_nat (max_retries - attempt)) (Z.to_nat attempt) delay).
Proof.
  induction fuel as [|fuel IH]; intros attempt delay Hge Hfuel; [lia|].
  simpl. destruct (decide (attempt < max_retries)) as [Hlt|Hnlt].
  - rewrite bool_decide_eq_true_2 by done.
    replace (Z.to_nat (max_retries - attempt))
      with (S (Z.to_nat (max_retries - (attempt + 1)))) by lia.
    simpl. destruct (oracle (Z.to_nat attempt)) as [e|]; [|done].
    destruct e; try done. destruct (is_lock_conflict py msg); [|done].
    replace (Z.to_nat (attempt + 1)) with (S (Z.to_nat attempt)) by lia.
    destruct (time_sleep py delay); [|done].
    rewrite IH by lia.
    replace (Z.to_nat (attempt + 1)) with (S (Z.to_nat attempt)) by lia.
    by destruct (retry_loop _ _ _ _ _ _ _ _).
  - rewrite bool_decide_eq_false_2 by done.
    by replace (Z.to_nat (max_retries - attempt)) with 0%nat by lia.
Qed.

Lemma locked_le (a n m : nat) :
  (m ≤ n)%nat → locked py oracle a n → locked py oracle a m.
Proof. intros Hle H k Hk. apply H. lia. Qed.
End retry_facts.

(** C4. The retry policy of [read_db] and [read_single_table].  After [N]
    lock conflicts in a row, with every delay of the retries that take place
    accepted by [time.sleep]: when [N < max_retries] and the next attempt
    opens the database, the call hands back what the read yields, after
    exactly [N+1] attempts and a total wait that is the sum of the delays
    the loop computes (the initial delay, then each time the last delay
    times the backoff factor, in floating point), which is
    [initial_delay * (1 + f + ... + f^(N-1))] when these products are exact;
    when the conflicts reach [max_retries], the call raises the terminal
    error that names the database and the attempt count. *)
Theorem retry_policy (py : runtime) (oracle : nat → option exn)
    (db : gmap string DataFrame)
    (db_filename table : string) (tables : list string)
    (max_retries : Z) (initial_delay backoff_factor : float) (N : nat) :
  locked py oracle 0 N →
  slept py (delays initial_delay backoff_factor (N `min` Z.to_nat max_retries)) →
  (Z.of_nat N < max_retries → oracle N = None →
     (∃ tr, read_db py oracle db db_filename tables max_retries
              initial_delay backoff_factor
              = (tr, read_tables db tables ∅)
            ∧ attempts tr = S N
            ∧ total_wait tr = sum_seconds (delays initial_delay backoff_factor N)
            ∧ (exact_delays initial_delay backoff_factor N →
               total_wait tr
               = geometric (seconds initial_delay) (seconds backoff_factor) N))
     ∧ (∃ tr, read_single_table py oracle db db_filename table max_retries
                initial_delay backoff_factor
              = (tr, select_from db table)
            ∧ attempts tr = S N
            ∧ total_wait tr = sum_seconds (delays initial_delay backoff_factor N)
            ∧ (exact_delays initial_delay backoff_factor N →
               total_wait tr
               = geometric (seconds initial_delay) (seconds backoff_factor) N)))
  ∧ (max_retries ≤ Z.of_nat N →
     (∃ tr, read_db py oracle db db_filename tables max_retries
              initial_delay backoff_factor
              = (tr, Raise (PyException
                   ("Failed to read from " +:+ db_filename +:+ " after "
                    +:+ pretty max_retries +:+ " attempts due to lock conflicts.")))
            ∧ attempts tr = Z.to_nat max_retries)
     ∧ (∃ tr, read_single_table py oracle db db_filename table max_retries
                initial_delay backoff_factor
              = (tr, Raise (PyException
                   ("Failed to read table '" +:+ table +:+ "' from " +:+ db_filename
                    +:+ " after " +:+ pretty max_retries
                    +:+ " attempts due to lock conflicts.")))
            ∧ attempts tr = Z.to_nat max_retries)).
Proof.
  intros Hlock Hsleep. split.
  - intros Hlt Hopen. unfold read_db, read_single_table.
    replace (N `min` Z.to_nat max_retries)%nat with N in Hsleep by lia.
    split.
    + destruct (retry_loop_succeeds py oracle (read_tables db tables ∅)
                  (read_db_failure db_filename max_retries) backoff_factor
                  N (Z.to_nat max_retries) 0%nat initial_delay)
        as (tr & -> & Hn & Hw); [done|done|done|lia|].
      exists tr. repeat split; [done|done|].
      intros He. by rewrite Hw, exact_delays_geometric.
    + destruct (retry_loop_succeeds py oracle (select_from db table)
                  (read_single_table_failure db_filename table max_retries)
                  backoff_factor N (Z.to_nat max_retries) 0%nat initial_delay)
        as (tr & -> & Hn & Hw); [done|done|done|lia|].
      exists tr. repeat split; [done|done|].
      intros He. by rewrite Hw, exact_delays_geometric.
  - intros Hle. unfold read_db, read_single_table.
    replace (N `min` Z.to_nat max_retries)%nat with (Z.to_nat max_retries)
      in Hsleep by lia.
    assert (Hl : locked py oracle 0 (Z.to_nat max_retries)).
    { apply (locked_le py oracle 0 N); [lia|done]. }
    split.
    + destruct (retry_loop_exhausts py oracle (read_tables db tables ∅)
                  (read_db_failure db_filename max_retries) backoff_factor
                  _ 0%nat initial_delay Hl Hsleep) as (tr & -> & Hn & _).
      by exists tr.
    + destruct (retry_loop_exhausts py oracle (select_from db table)
                  (read_single_table_failure db_filename table max_retries)
                  backoff_factor _ 0%nat initial_delay Hl Hsleep) as (tr & -> & Hn & _).
      by exists tr.
Qed.

(** C10. With [max_retries] zero or negative the loop body never runs: both
    readers raise the terminal error at once, without a single connection
    attempt, whatever the state of the database. *)
Theorem no_retries_no_read (py : runtime) (oracle : nat → option exn)
    (db : gmap string DataFrame)
    (db_filename table : string) (tables : list string)
    (max_retries : Z) (initial_delay backoff_factor : float) :
  max_retries ≤ 0 →
  read_db py oracle db db_filename tables max_retries initial_delay backoff_factor
  = ([], Raise (PyException (read_db_failure db_filename max_retries)))
  ∧ read_single_table py oracle db db_filename table max_retries
      initial_delay backoff_factor
    = ([], Raise (PyException
                    (read_single_table_failure db_filename table max_retries))).
Proof.
  intros Hle. unfold read_db, read_single_table.
  replace (Z.to_nat max_retries) with 0%nat by lia. done.
Qed.

(** ** The Polars operators *)

Lemma check_columns_ok (names cols : list string) (u : unit) :
  check_columns names cols = Ok u ↔ ∀ c, c ∈ names → c ∈ cols.
Proof.
  unfold check_columns, first_missing. destruct u.
  destruct (filter (λ c, c ∉ cols) names) as [|c0 l] eqn:Hf; simpl.
  - split; [intros _ c Hc|done].
    destruct (decide (c ∈ cols)) as [|Hn]; [done|].
    assert (c ∈ filter (λ c, c ∉ cols) names) as Hin
      by by apply list_elem_of_filter.
    rewrite Hf in Hin. by apply elem_of_nil in Hin.
  - split; [done|]. intros H.
    assert (c0 ∈ filter (λ c, c ∉ cols) names) as [Hn Hin]%list_elem_of_filter
      by (rewrite Hf; left).
    by apply H in Hin.
Qed.

Lemma check_columns_inv (names cols : list string) (u : unit) :
  check_columns names cols = Ok u → ∀ c, c ∈ names → c ∈ cols.
Proof. apply check_columns_ok. Qed.

Lemma mapM_ok {A B} (f : A → result B) (l : list A) (l' : list B) :
  mapM f l = Ok l' → Forall2 (λ a b, f a = Ok b) l l'.
Proof.
  revert l'. induction l as [|a l IH]; intros l'; simpl.
  - intros [= <-]. constructor.
  - intros (b & Hb & (bs & Hbs & [= <-])%bind_ok)%bind_ok.
    constructor; [done|by apply IH].
Qed.

Lemma project_lookup (names : list string) (r : row) (c : string) :
  c ∈ names → project names r !!! c = r !!! c.
Proof.
  unfold project. intros Hc.
  assert (H : (list_to_map ((λ c, (c, r !!! c)) <$> names) : row) !! c
              = Some (r !!! c)); [|by rewrite lookup_total_alt, H].
  induction names as [|a names IH]; [by apply elem_of_nil in Hc|].
  simpl. destruct (decide (a = c)) as [->|Hne].
  - by rewrite lookup_insert_eq.
  - rewrite lookup_insert_ne by done. apply IH.
    apply elem_of_cons in Hc as [?|?]; [congruence|done].
Qed.

Lemma select_ok (names : list string) (df out : DataFrame) :
  select names df = Ok out →
  (∀ c, c ∈ names → c ∈ columns df)
  ∧ columns out = names
  ∧ rows out = project names <$> rows df.
Proof.
  unfold select. intros (u & Hc & (u' & _ & [= <-])%bind_ok)%bind_ok.
  split; [|done]. by apply (check_columns_inv _ _ u).
Qed.

Lemma select_column (names : list string) (df out : DataFrame) (c : string) :
  select names df = Ok out → c ∈ names →
  column c (rows out) = column c (rows df).
Proof.
  intros (_ & _ & ->)%select_ok Hc. unfold column.
  rewrite <- list_fmap_compose. apply list_fmap_ext. intros _ r _. simpl.
  by apply project_lookup.
Qed.

Lemma with_columns_ok (name : string) (e : expr) (df out : DataFrame) :
  with_columns name e df = Ok out →
  (∀ c, c ∈ expr_columns e → c ∈ columns df)
  ∧ columns out = (if bool_decide (name ∈ columns df) then columns df
                   else columns df ++ [name])
  ∧ Forall2 (λ r r' : row, ∃ c, eval e r = Ok c ∧ r' = <[name := c]> r)
            (rows df) (rows out).
Proof.
  unfold with_columns.
  intros (u & Hc & (rs & Hrs%mapM_ok & [= <-])%bind_ok)%bind_ok.
  split; [by apply (check_columns_inv _ _ u)|]. split; [done|]. simpl.
  eapply Forall2_impl; [exact Hrs|]. simpl.
  intros r r' (c & Hc' & [= <-])%bind_ok. eauto.
Qed.

Lemma with_columns_column (name : string) (e : expr) (df out : DataFrame) (c : string) :
  with_columns name e df = Ok out → c ≠ name →
  column c (rows out) = column c (rows df).
Proof.
  intros (_ & _ & Hrows)%with_columns_ok Hne. unfold column.
  induction Hrows as [|r r' rs rs' (x & _ & ->) _ IH]; [done|].
  rewrite !fmap_cons, IH. f_equal. by rewrite lookup_total_insert_ne.
Qed.

Lemma with_columns_new_cell (name : string) (e : expr) (df out : DataFrame) (o : row) :
  with_columns name e df = Ok out → o ∈ rows out →
  ∃ r, r ∈ rows df ∧ eval e r = Ok (o !!! name)
       ∧ ∀ c, c ≠ name → o !!! c = r !!! c.
Proof.
  intros (_ & _ & Hrows)%with_columns_ok Ho.
  induction Hrows as [|r r' rs rs' (x & Hx & ->) _ IH]; [by apply elem_of_nil in Ho|].
  apply elem_of_cons in Ho as [->|Ho].
  - exists r. split; [left|]. rewrite lookup_total_insert_eq. split; [done|].
    intros c Hc. by rewrite lookup_total_insert_ne.
  - destruct (IH Ho) as (r0 & ? & ?). exists r0. split; [by right|done].
Qed.

(** *** Inner joins *)

Lemma merge_rows_other (lcols others : list string) (l r : row) (x : string) :
  x ∉ right_name lcols <$> others →
  merge_rows lcols others l r !!! x = l !!! x.
Proof.
  unfold merge_rows. induction others as [|c others IH]; [done|].
  rewrite fmap_cons, not_elem_of_cons. intros [Hne Hnotin]. simpl.
  rewrite lookup_total_insert_ne by done. by apply IH.
Qed.

Lemma merge_rows_right (lcols others : list string) (l r : row) (c : string) :
  NoDup (right_name lcols <$> others) → c ∈ others →
  merge_rows lcols others l r !!! right_name lcols c = r !!! c.
Proof.
  unfold merge_rows. induction others as [|c' others IH]; intros Hnd Hc.
  { by apply elem_of_nil in Hc. }
  rewrite fmap_cons in Hnd. apply NoDup_cons in Hnd as [Hnotin Hnd]. simpl.
  apply elem_of_cons in Hc as [->|Hc]; [by rewrite lookup_total_insert_eq|].
  rewrite lookup_total_insert_ne; [by apply IH|].
  intros Heq. apply Hnotin. rewrite Heq.
  by apply (list_elem_of_fmap_2 (right_name lcols)).
Qed.

Lemma bind_singleton_fmap {A B} (g : A → B) (l : list A) :
  (l ≫= λ a, [g a]) = g <$> l.
Proof. induction l as [|a l IH]; [done|]. by rewrite bind_cons, IH. Qed.

Lemma join_inner_ok (left right out : DataFrame) (on : string) :
  join_inner left right on = Ok out →
  let others := filter (λ c, c ≠ on) (columns right) in
  on ∈ columns left ∧ on ∈ columns right
  ∧ NoDup (columns left ++ (right_name (columns left) <$> others))
  ∧ columns out = columns left ++ (right_name (columns left) <$> others)
  ∧ rows out =
      (l ← rows left;
       merge_rows (columns left) others l
         <$> filter (λ r : row, sql_eq (l !!! on) (r !!! on) = true) (rows right)).
Proof.
  unfold join_inner.
  intros (u1 & H1 & (u2 & H2 & (u3 & H3%require_ok & [= <-])%bind_ok)%bind_ok)%bind_ok.
  simpl. apply bool_decide_eq_true in H3.
  split; [apply (check_columns_inv _ _ _ H1); left|].
  split; [apply (check_columns_inv _ _ _ H2); left|].
  split; [done|]. split; [done|].
  induction (rows left) as [|l ls IH]; [done|].
  by rewrite !bind_cons, IH, bind_singleton_fmap.
Qed.

(** Where a row of an inner join comes from. *)
Lemma join_inner_row (left right out : DataFrame) (on : string) (j : row) :
  join_inner left right on = Ok out → j ∈ rows out →
  ∃ l r : row, l ∈ rows left ∧ r ∈ rows right
    ∧ l !!! on = r !!! on ∧ l !!! on ≠ Null
    ∧ (∀ x, x ∈ columns left → j !!! x = l !!! x)
    ∧ (∀ c, c ∈ columns right → c ≠ on →
            j !!! right_name (columns left) c = r !!! c).
Proof.
  intros (_ & _ & Hnd & _ & Hrows)%join_inner_ok. rewrite Hrows.
  intros (l & Hj & Hl)%list_elem_of_bind.
  apply list_elem_of_fmap in Hj as (r & -> & [Hm Hr]%list_elem_of_filter).
  apply sql_eq_true in Hm as [Heq Hnn].
  exists l, r. repeat split; try done.
  - intros x Hx. apply merge_rows_other.
    apply NoDup_app in Hnd as (_ & Hdisj & _). by apply Hdisj.
  - intros c Hc Hne. apply merge_rows_right.
    + by apply NoDup_app in Hnd as (_ & _ & ?).
    + by apply list_elem_of_filter.
Qed.

Lemma filter_match_unique (on : string) (k : cell) (rs : list row) :
  NoDup (column on rs) →
  (length (filter (λ r : row, sql_eq k (r !!! on) = true) rs) ≤ 1)%nat.
Proof.
  induction rs as [|r rs IH]; [simpl; lia|].
  unfold column. rewrite fmap_cons. intros [Hnotin Hnd]%NoDup_cons.
  rewrite filter_cons. destruct (decide _) as [Hm|]; [|by apply IH].
  apply sql_eq_true in Hm as [-> _].
  replace (filter _ rs) with (@nil row); [simpl; lia|].
  symmetry. apply elem_of_nil_inv. intros r' [Hm' Hr']%list_elem_of_filter.
  apply sql_eq_true in Hm' as [Heq _]. apply Hnotin. rewrite Heq.
  by apply (list_elem_of_fmap_2 (λ r : row, r !!! on)).
Qed.

Lemma join_inner_keys_NoDup (left right out : DataFrame) (on : string) :
  join_inner left right on = Ok out →
  NoDup (column on (rows left)) → NoDup (column on (rows right)) →
  NoDup (column on (rows out)).
Proof.
  intros Hj Hl Hr.
  destruct (join_inner_ok _ _ _ _ Hj) as (Hon & _ & Hnd & _ & Hrows).
  rewrite Hrows. clear Hrows Hj.
  set (others := filter _ (columns right)) in *.
  assert (Hkey : ∀ l r, merge_rows (columns left) others l r !!! on = l !!! on).
  { intros l r. apply merge_rows_other.
    apply NoDup_app in Hnd as (_ & Hdisj & _). by apply Hdisj. }
  induction (rows left) as [|l ls IH]; [constructor|].
  unfold column in Hl. rewrite fmap_cons in Hl. apply NoDup_cons in Hl as [Hnotin Hl].
  rewrite bind_cons, column_app. apply NoDup_app.
  split; [|split; [|by apply IH]].
  - pose proof (filter_match_unique on (l !!! on) (rows right) Hr) as Hle.
    destruct (filter _ (rows right)) as [|r [|r' ms]]; simpl in *;
      [constructor|apply NoDup_singleton|lia].
  - intros k (j & -> & (r & -> & _)%list_elem_of_fmap)%list_elem_of_fmap.
    rewrite Hkey.
    intros (j' & Hk & (l' & (r' & -> & _)%list_elem_of_fmap & Hl')%list_elem_of_bind)
      %list_elem_of_fmap.
    rewrite Hkey in Hk. apply Hnotin. rewrite Hk.
    by apply (list_elem_of_fmap_2 (λ r : row, r !!! on)).
Qed.

Lemma join_inner_keys_incl (left right out : DataFrame) (on : string) (k : cell) :
  join_inner left right on = Ok out → k ∈ column on (rows out) →
  k ≠ Null ∧ k ∈ column on (rows left) ∧ k ∈ column on (rows right).
Proof.
  intros Hj (j & -> & Hin)%list_elem_of_fmap.
  destruct (join_inner_ok _ _ _ _ Hj) as (Hon & _).
  destruct (join_inner_row _ _ _ _ j Hj Hin) as (l & r & Hl & Hr & Heq & Hnn & Hleft & _).
  rewrite (Hleft on Hon). split; [done|]. split.
  - by apply elem_of_column.
  - rewrite Heq. by apply elem_of_column.
Qed.

(** ** The join engine *)

Lemma getitem_ok (dataframes : gmap string DataFrame) (name : string) (df : DataFrame) :
  getitem dataframes name = Ok df → dataframes !! name = Some df.
Proof. unfold getitem. destruct (dataframes !! name); by intros [= ->]. Qed.

(** The steps of a join that returns. *)
Lemma join_dataframes_ok (dataframes : gmap string DataFrame) (out : DataFrame) :
  join_dataframes dataframes = Ok out →
  ∃ A B C j1 j2 sel j3 j4,
    dataframes !! "encrypted_stores" = Some A
    ∧ dataframes !! "commit_stores" = Some B
    ∧ dataframes !! "commits_processed" = Some C
    ∧ join_inner A B commitmentIndex = Ok j1
    ∧ with_columns "txnHash" (add (lit "0x") (col "txnHash")) j1 = Ok j2
    ∧ select [commitmentIndex; "isSlash"] C = Ok sel
    ∧ join_inner j2 sel commitmentIndex = Ok j3
    ∧ with_columns "block_number_encrypted" (col "block_number") j3 = Ok j4
    ∧ select commitments_columns j4 = Ok out.
Proof.
  unfold join_dataframes.
  intros (A & HA%getitem_ok & (B & HB%getitem_ok & (C & HC%getitem_ok &
          (j1 & H1 & (j2 & H2 & (sel & Hs & (j3 & H3 & (j4 & H4 & H5)
          %bind_ok)%bind_ok)%bind_ok)%bind_ok)%bind_ok)%bind_ok)%bind_ok)%bind_ok.
  exists A, B, C, j1, j2, sel, j3, j4. done.
Qed.

(** The keys of the commitments view, traced back to the three tables. *)
Lemma join_dataframes_keys (dataframes : gmap string DataFrame) (A B C out : DataFrame) :
  dataframes !! "encrypted_stores" = Some A →
  dataframes !! "commit_stores" = Some B →
  dataframes !! "commits_processed" = Some C →
  join_dataframes dataframes = Ok out →
  (∀ k, k ∈ key_cells (rows out) →
        k ≠ Null ∧ k ∈ key_cells (rows A) ∧ k ∈ key_cells (rows B)
        ∧ k ∈ key_cells (rows C))
  ∧ (unique_keys (rows A) → unique_keys (rows B) → unique_keys (rows C) →
     unique_keys (rows out)).
Proof.
  intros HA HB HC
    (A' & B' & C' & j1 & j2 & sel & j3 & j4 & HA' & HB' & HC' & H1 & H2 & Hs & H3 & H4 & H5)
    %join_dataframes_ok.
  rewrite HA in HA'. rewrite HB in HB'. rewrite HC in HC'.
  injection HA' as <-. injection HB' as <-. injection HC' as <-.
  unfold unique_keys, key_cells.
  assert (Hout : column commitmentIndex (rows out) = column commitmentIndex (rows j3)).
  { rewrite (select_column _ _ _ commitmentIndex H5) by (unfold commitments_columns; in_list).
    by apply (with_columns_column _ _ _ _ _ H4). }
  assert (Hj2 : column commitmentIndex (rows j2) = column commitmentIndex (rows j1)).
  { by apply (with_columns_column _ _ _ _ _ H2). }
  assert (Hsel : column commitmentIndex (rows sel) = column commitmentIndex (rows C)).
  { apply (select_column _ _ _ _ Hs). left. }
  rewrite Hout. split.
  - intros k Hk.
    destruct (join_inner_keys_incl _ _ _ _ _ H3 Hk) as (Hnn & Hk2 & Hks).
    rewrite Hj2 in Hk2. rewrite Hsel in Hks.
    destruct (join_inner_keys_incl _ _ _ _ _ H1 Hk2) as (_ & ? & ?). done.
  - intros HuA HuB HuC.
    apply (join_inner_keys_NoDup _ _ _ _ H3).
    + rewrite Hj2. by apply (join_inner_keys_NoDup _ _ _ _ H1).
    + by rewrite Hsel.
Qed.

Lemma NoDup_incl_length (ks1 ks2 : list cell) :
  NoDup ks1 → (∀ k, k ∈ ks1 → k ∈ ks2) → (length ks1 ≤ length ks2)%nat.
Proof. intros Hnd Hincl. by apply submseteq_length, NoDup_submseteq. Qed.

(** C2. When [commitmentIndex] is unique in each of the three tables, the
    commitments view has at most as many rows as the smallest table, no row
    appears in it twice, and the [commitmentIndex] of each of its rows is
    present in all three tables. *)
Theorem join_dataframes_bounded (dataframes : gmap string DataFrame)
    (A B C out : DataFrame) :
  dataframes !! "encrypted_stores" = Some A →
  dataframes !! "commit_stores" = Some B →
  dataframes !! "commits_processed" = Some C →
  unique_keys (rows A) → unique_keys (rows B) → unique_keys (rows C) →
  join_dataframes dataframes = Ok out →
  (height out ≤ height A `min` (height B `min` height C))%nat
  ∧ NoDup (rows out)
  ∧ ∀ o : row, o ∈ rows out →
      o !!! commitmentIndex ∈ key_cells (rows A)
      ∧ o !!! commitmentIndex ∈ key_cells (rows B)
      ∧ o !!! commitmentIndex ∈ key_cells (rows C).
Proof.
  intros HA HB HC HuA HuB HuC Hout.
  destruct (join_dataframes_keys _ _ _ _ _ HA HB HC Hout) as [Hincl Huniq].
  specialize (Huniq HuA HuB HuC). unfold unique_keys in Huniq.
  assert (Hlen : ∀ df : DataFrame, height df = length (key_cells (rows df))).
  { intros df. unfold height, key_cells, column. by rewrite length_fmap. }
  split; [|split].
  - rewrite !Hlen. repeat apply Nat.min_glb;
      apply NoDup_incl_length; try done; intros k Hk; by apply Hincl.
  - by apply (NoDup_fmap_1 (λ r : row, r !!! commitmentIndex)).
  - intros o Ho. apply (elem_of_column commitmentIndex) in Ho.
    destruct (Hincl _ Ho) as (_ & ? & ? & ?). done.
Qed.

(** Where a row of the commitments view comes from: a row [a] of
    [encrypted_stores], a row [b] of [commit_stores] and a row [c] of
    [commits_processed] with one key; [j] is the row of the first join. *)
Lemma join_dataframes_row (dataframes : gmap string DataFrame) (out : DataFrame)
    (o : row) :
  join_dataframes dataframes = Ok out → o ∈ rows out →
  ∃ (A B C : DataFrame) (a b c j : row),
    dataframes !! "encrypted_stores" = Some A
    ∧ dataframes !! "commit_stores" = Some B
    ∧ dataframes !! "commits_processed" = Some C
    ∧ a ∈ rows A ∧ b ∈ rows B ∧ c ∈ rows C
    ∧ o !!! commitmentIndex = a !!! commitmentIndex
    ∧ a !!! commitmentIndex = b !!! commitmentIndex
    ∧ a !!! commitmentIndex = c !!! commitmentIndex
    ∧ (∀ x, x ∈ columns A → j !!! x = a !!! x)
    ∧ (∀ y, y ∈ columns B → y ≠ commitmentIndex →
            j !!! right_name (columns A) y = b !!! y)
    ∧ add_cells (Str "0x") (j !!! "txnHash") = Ok (o !!! "txnHash")
    ∧ o !!! "block_number_encrypted" = j !!! "block_number".
Proof.
  intros (A & B & C & j1 & j2 & sel & j3 & j4
          & HA & HB & HC & H1 & H2 & Hs & H3 & H4 & H5)%join_dataframes_ok Ho.
  destruct (select_ok _ _ _ H5) as (_ & _ & Hrows). rewrite Hrows in Ho.
  apply list_elem_of_fmap in Ho as (r4 & -> & Hr4).
  destruct (with_columns_new_cell _ _ _ _ r4 H4 Hr4) as (r3 & Hr3 & Hbne & Hr43).
  simpl in Hbne. injection Hbne as Hbne.
  destruct (join_inner_row _ _ _ _ r3 H3 Hr3) as (l2 & rs & Hl2 & Hrs & Hk2 & _ & Hr32 & _).
  destruct (with_columns_new_cell _ _ _ _ l2 H2 Hl2) as (j & Hj & Htx & Hl2j).
  simpl in Htx.
  destruct (join_inner_row _ _ _ _ j H1 Hj) as (a & b & Ha & Hb & Hab & _ & Hja & Hjb).
  destruct (select_ok _ _ _ Hs) as (_ & Hselcols & Hselrows).
  rewrite Hselrows in Hrs. apply list_elem_of_fmap in Hrs as (c & -> & Hc).
  rewrite project_lookup in Hk2 by left.
  destruct (with_columns_ok _ _ _ _ H2) as (Htxin & Hcols2 & _).
  rewrite bool_decide_eq_true_2 in Hcols2 by (apply Htxin; left).
  destruct (join_inner_ok _ _ _ _ H1) as (HonA & _).
  destruct (join_inner_ok _ _ _ _ H3) as (Hon2 & _ & _ & Hcols3 & _).
  assert (Hbn2 : "block_number" ∈ columns j2).
  { destruct (with_columns_ok _ _ _ _ H4) as (Hbn & _).
    specialize (Hbn "block_number"). rewrite Hcols3, Hselcols in Hbn.
    apply elem_of_app in Hbn as [?|Hbn]; [done| |left].
    revert Hbn. unfold right_name, commitmentIndex.
    rewrite filter_cons, decide_False by (by intros H; apply H).
    rewrite filter_cons, decide_True by done.
    rewrite filter_nil, list_fmap_singleton, list_elem_of_singleton.
    by destruct (bool_decide _). }
  exists A, B, C, a, b, c, j. repeat split; try done.
  - rewrite project_lookup by (unfold commitments_columns; in_list).
    rewrite Hr43 by done. rewrite Hr32 by done. rewrite Hl2j by done.
    by apply Hja.
  - rewrite <- Hk2, Hl2j by done. symmetry. by apply Hja.
  - rewrite project_lookup by (unfold commitments_columns; in_list).
    rewrite Hr43 by done. rewrite Hr32; [done|].
    rewrite Hcols2. apply Htxin. left.
  - rewrite project_lookup by (unfold commitments_columns; in_list).
    rewrite <- Hbne. rewrite Hr32 by done. by apply Hl2j.
Qed.

Lemma sample_view_joined : join_dataframes sample_db = Ok sample_view.
Proof. by vm_compute. Qed.

Lemma right_suffix_txnHash (y : string) : y +:+ "_right" ≠ "txnHash".
Proof.
  intros H.
  do 7 (destruct y as [|? y]; [discriminate H|];
        cbv [String.append] in H; fold String.append in H; injection H as _ H).
  destruct y; discriminate H.
Qed.

(** C7. [txnHash] in the commitments view is ["0x"] followed by the joined
    [txnHash], prefixed or not: the prefix is prepended unconditionally.
    The joined [txnHash] of a row is that of the [encrypted_stores] row with
    its key when [encrypted_stores] has the column, and that of the
    [commit_stores] row otherwise.  When it is a string, the view holds
    ["0x"] followed by that string; when it is NULL, the view holds NULL.
    So a [txnHash] of the view that is not NULL starts with ["0x"]. *)
Theorem txnHash_prefixed (dataframes : gmap string DataFrame) (out : DataFrame) :
  join_dataframes dataframes = Ok out →
  ∃ A B : DataFrame,
    dataframes !! "encrypted_stores" = Some A
    ∧ dataframes !! "commit_stores" = Some B
    ∧ ("txnHash" ∈ columns A ∨ "txnHash" ∈ columns B)
    ∧ (∀ o : row, o ∈ rows out →
         ∃ a b : row,
           a ∈ rows A ∧ b ∈ rows B
           ∧ a !!! commitmentIndex = o !!! commitmentIndex
           ∧ b !!! commitmentIndex = o !!! commitmentIndex
           ∧ let joined := if bool_decide ("txnHash" ∈ columns A)
                           then a !!! "txnHash" else b !!! "txnHash" in
             (joined = Null ∧ o !!! "txnHash" = Null)
             ∨ ∃ s, joined = Str s ∧ o !!! "txnHash" = Str ("0x" +:+ s))
    ∧ (∀ o : row, o ∈ rows out → o !!! "txnHash" ≠ Null →
         ∃ s, o !!! "txnHash" = Str ("0x" +:+ s)).
Proof.
  intros Hout.
  destruct (join_dataframes_ok _ _ Hout)
    as (A & B & C & j1 & j2 & sel & j3 & j4 & HA & HB & _ & H1 & H2 & _).
  assert (Hcol : "txnHash" ∉ columns A → "txnHash" ∈ columns B).
  { intros HnA. destruct (with_columns_ok _ _ _ _ H2) as (Hin & _).
    specialize (Hin "txnHash"). simpl in Hin.
    destruct (join_inner_ok _ _ _ _ H1) as (_ & _ & _ & Hcols & _).
    rewrite Hcols in Hin.
    assert (Hin' := Hin ltac:(in_list)). clear Hin.
    apply elem_of_app in Hin' as [?|Hin]; [done|].
    apply list_elem_of_fmap in Hin as (y & Hy & Hin).
    apply list_elem_of_filter in Hin as [_ Hin]. unfold right_name in Hy.
    destruct (bool_decide (y ∈ columns A)); [|by subst].
    symmetry in Hy. by apply right_suffix_txnHash in Hy. }
  assert (Hrow : ∀ o : row, o ∈ rows out →
            ∃ a b : row,
              a ∈ rows A ∧ b ∈ rows B
              ∧ a !!! commitmentIndex = o !!! commitmentIndex
              ∧ b !!! commitmentIndex = o !!! commitmentIndex
              ∧ let joined := if bool_decide ("txnHash" ∈ columns A)
                              then a !!! "txnHash" else b !!! "txnHash" in
                (joined = Null ∧ o !!! "txnHash" = Null)
                ∨ ∃ s, joined = Str s ∧ o !!! "txnHash" = Str ("0x" +:+ s)).
  { intros o Ho.
    destruct (join_dataframes_row _ _ o Hout Ho)
      as (A' & B' & C' & a & b & c & j & HA' & HB' & _ & Ha & Hb & _ & Hoa & Hab & _
          & Hja & Hjb & Htx & _).
    rewrite HA in HA'. rewrite HB in HB'. injection HA' as <-. injection HB' as <-.
    exists a, b. split; [done|]. split; [done|]. split; [done|].
    split; [by rewrite Hoa, Hab|]. simpl.
    assert (Hj : j !!! "txnHash"
                 = if bool_decide ("txnHash" ∈ columns A)
                   then a !!! "txnHash" else b !!! "txnHash").
    { destruct (decide ("txnHash" ∈ columns A)) as [HinA|HnA].
      - rewrite bool_decide_eq_true_2 by done. by apply Hja.
      - rewrite bool_decide_eq_false_2 by done.
        specialize (Hjb "txnHash" (Hcol HnA)). unfold right_name in Hjb.
        rewrite bool_decide_eq_false_2 in Hjb by done. by apply Hjb. }
    rewrite <- Hj.
    destruct (j !!! "txnHash") as [|z|s|bo]; simpl in Htx; try done;
      injection Htx as <-; [by left|right; by exists s]. }
  exists A, B. split; [done|]. split; [done|]. split.
  { destruct (decide ("txnHash" ∈ columns A)); [by left|right; by apply Hcol]. }
  split; [done|].
  intros o Ho Hnn. destruct (Hrow o Ho) as (a & b & _ & _ & _ & _ & Hcase).
  simpl in Hcase. destruct Hcase as [[_ ?]|(s & _ & ?)]; [done|by exists s].
Qed.

Lemma project_lookup_other (names : list string) (r : row) (c : string) :
  c ∉ names → project names r !! c = None.
Proof.
  unfold project. intros Hc. apply not_elem_of_list_to_map_1.
  rewrite <- list_fmap_compose. simpl. by rewrite list_fmap_id.
Qed.

Lemma project_lookup_some (names : list string) (r : row) (c : string) :
  c ∈ names → project names r !! c = Some (r !!! c).
Proof.
  unfold project. induction names as [|a names IH]; intros Hc.
  { by apply elem_of_nil in Hc. }
  simpl. destruct (decide (a = c)) as [->|Hne].
  - by rewrite lookup_insert_eq.
  - rewrite lookup_insert_ne by done. apply IH.
    apply elem_of_cons in Hc as [?|?]; [congruence|done].
Qed.

(** C8, counterexample. The projection list of the source has 18 names,
    not 17. *)
Lemma commitments_view_not_17_columns :
  ¬ (∀ (dataframes : gmap string DataFrame) (out : DataFrame),
       join_dataframes dataframes = Ok out → length (columns out) = 17%nat).
Proof.
  intros H. specialize (H sample_db sample_view sample_view_joined).
  vm_compute in H. discriminate H.
Qed.

(** C8, as the code has it. A commitments view that [join_dataframes]
    returns has exactly the 18 columns of the projection list, in that
    order; each row carries exactly those columns; and
    [block_number_encrypted] is the [block_number] of the [encrypted_stores]
    row with that key. *)
Theorem commitments_view_columns (dataframes : gmap string DataFrame)
    (out : DataFrame) :
  join_dataframes dataframes = Ok out →
  columns out =
    [ "block_number_encrypted"; "timestamp"; "txnHash"; "bid"; "commiter";
      "bidder"; "isSlash"; "decayStartTimeStamp"; "decayEndTimeStamp";
      "dispatchTimestamp"; "commitmentHash"; "commitmentIndex";
      "commitmentDigest"; "commitmentSignature"; "revertingTxHashes";
      "bidHash"; "bidSignature"; "sharedSecretKey" ]
  ∧ length (columns out) = 18%nat
  ∧ (∀ (o : row) (x : string), o ∈ rows out → (is_Some (o !! x) ↔ x ∈ columns out))
  ∧ (∀ A : DataFrame,
       dataframes !! "encrypted_stores" = Some A →
       "block_number" ∈ columns A →
       ∀ o : row, o ∈ rows out →
         ∃ a : row, a ∈ rows A
           ∧ a !!! commitmentIndex = o !!! commitmentIndex
           ∧ o !!! "block_number_encrypted" = a !!! "block_number").
Proof.
  intros Hout.
  destruct (join_dataframes_ok _ _ Hout)
    as (A & B & C & j1 & j2 & sel & j3 & j4 & HA & _ & _ & _ & _ & _ & _ & _ & H5).
  destruct (select_ok _ _ _ H5) as (_ & Hcols & Hrows).
  split; [by rewrite Hcols|]. split; [by rewrite Hcols|]. split.
  - intros o x Ho. rewrite Hrows in Ho.
    apply list_elem_of_fmap in Ho as (r & -> & _). rewrite Hcols.
    destruct (decide (x ∈ commitments_columns)) as [Hx|Hx].
    + rewrite project_lookup_some by done. split; [done|eauto].
    + rewrite project_lookup_other by done. split; [by intros [? ?]|done].
  - intros A' HA' Hbn o Ho. rewrite HA in HA'. injection HA' as <-.
    destruct (join_dataframes_row _ _ o Hout Ho)
      as (A' & _ & _ & a & _ & _ & j & HA' & _ & _ & Ha & _ & _ & Hoa & _ & _
          & Hja & _ & _ & Hb).
    rewrite HA in HA'. injection HA' as <-.
    exists a. split; [done|]. split; [done|]. rewrite Hb. by apply Hja.
Qed.

(** ** Loading and joining *)

(** C9. [load_and_join_data] never lets an exception out: whatever the
    database, the table list and the lock conflicts, it returns a frame, and
    that frame is the empty frame whenever the read or the join raised.  An
    empty result is ambiguous: it is what an error gives and what tables
    without a common commitment give. *)
Theorem load_and_join_data_total (py : runtime) :
  (∀ (oracle : nat → option exn) (db : gmap string DataFrame)
     (db_filename : string) (tables : list string),
     ∃ df, (load_and_join_data py oracle db db_filename tables).2 = Ok df
           ∧ ((∀ dfs, (read_db py oracle db db_filename tables default_max_retries
                         default_initial_delay default_backoff_factor).2 = Ok dfs →
                      ∃ e, join_dataframes dfs = Raise e) →
              df = empty_frame))
  ∧ (∃ (oracle : nat → option exn) (db : gmap string DataFrame) (e : exn),
       (read_db py oracle db "mev_commit.duckdb" ["commit_stores"] default_max_retries
          default_initial_delay default_backoff_factor).2 = Raise e
       ∧ ∃ df, (load_and_join_data py oracle db "mev_commit.duckdb" ["commit_stores"]).2
               = Ok df ∧ is_empty df = true)
  ∧ (∃ (oracle : nat → option exn) (db dfs : gmap string DataFrame) (df : DataFrame),
       let tables := ["encrypted_stores"; "commit_stores"; "commits_processed"] in
       (read_db py oracle db "mev_commit.duckdb" tables default_max_retries
          default_initial_delay default_backoff_factor).2 = Ok dfs
       ∧ join_dataframes dfs = Ok df
       ∧ (load_and_join_data py oracle db "mev_commit.duckdb" tables).2 = Ok df
       ∧ is_empty df = true).
Proof.
  split; [|split].
  - intros oracle db db_filename tables. unfold load_and_join_data.
    destruct (read_db _ _ _ _ _ _ _ _) as [tr [dfs|e]]; simpl.
    + destruct (join_dataframes dfs) as [df|e] eqn:Hj.
      * exists df. split; [done|]. intros H. destruct (H dfs eq_refl). congruence.
      * by exists empty_frame.
    + by exists empty_frame.
  - exists (λ _, None), ∅, (CatalogException "commit_stores").
    split; [done|]. by exists empty_frame.
  - exists (λ _, None),
      (<["commit_stores" := mkDF (columns sample_commits) []]> sample_db).
    eexists _, _. simpl. split; [vm_compute; reflexivity|].
    split; [vm_compute; reflexivity|]. split; vm_compute; reflexivity.
Qed.

(** ** The cycle *)



Lemma fetch_events_tables_names (fetch : string → Z → result DataFrame)
    (latest_blocks : gmap string Z) (dataframes : list (string * DataFrame)) :
  fetch_events fetch tables latest_blocks [] = Ok dataframes →
  dataframes.*1 = table_name <$> tables.
Proof.
  unfold tables. simpl.
  by intros (d1 & _ & (d2 & _ & (d3 & _ & [= <-])%bind_ok)%bind_ok)%bind_ok.
Qed.






(** * Further properties of the storage accessor *)

(** ** Writes only append *)

Lemma write_keeps_rows (df : DataFrame) (written other : string)
    (db : gmap string DataFrame) (t : DataFrame) :
  db !! other = Some t →
  ∃ t', (write_to_duckdb df written db).1 !! other = Some t'
        ∧ columns t' = columns t
        ∧ rows t `prefix_of` rows t'.
Proof.
  intros Ht.
  destruct (decide (other = written)) as [->|Hne].
  - destruct (is_empty df) eqn:He.
    { rewrite write_no_data by done. by exists t. }
    destruct (write_append df t written db He Ht) as [->|(_ & _ & _ & ->)].
    + by exists t.
    + rewrite lookup_insert_eq. eexists. split; [done|]. split; [done|].
      simpl. by apply prefix_app_r.
  - rewrite write_other_table by done. by exists t.
Qed.

(** X1. A write never drops a table, never changes the columns of a stored
    table and never touches a stored row: whatever is written, and to
    whichever table, the rows a table had are a prefix of the rows it has
    afterwards. *)
Theorem write_to_duckdb_append_only (df : DataFrame) (written other : string)
    (db : gmap string DataFrame) (t : DataFrame) :
  db !! other = Some t →
  ∃ t', (write_to_duckdb df written db).1 !! other = Some t'
        ∧ columns t' = columns t
        ∧ rows t `prefix_of` rows t'
        ∧ (other ≠ written → t' = t).
Proof.
  intros Ht. destruct (write_keeps_rows df written other db t Ht) as (t' & Ht' & ? & ?).
  exists t'. repeat split; try done.
  intros Hne. rewrite write_other_table, Ht in Ht' by done. by injection Ht'.
Qed.

Lemma anti_join_length (new existing : list row) :
  (length (anti_join new existing) ≤ length new)%nat.
Proof. rewrite anti_join_filter. apply length_filter. Qed.

(** X3. What an append reports and what it stores.  The status of a
    successful append names the number of rows offered, [len(df)]; the
    number of rows stored is the size of the anti-join, anywhere from 0 to
    [len(df)]; and nothing is stored when every offered row carries a key
    that the table already has. *)
Theorem write_to_duckdb_reports_offered (df t : DataFrame) (table_name status : string)
    (db : gmap string DataFrame) :
  is_empty df = false →
  db !! table_name = Some t →
  (write_to_duckdb df table_name db).2 = Ok status →
  status = table_name +:+ ": inserted " +:+ pretty (height df) +:+ " new records"
  ∧ ∃ t', (write_to_duckdb df table_name db).1 !! table_name = Some t'
          ∧ height t' = (height t + length (anti_join (rows df) (rows t)))%nat
          ∧ (height t ≤ height t' ≤ height t + height df)%nat
          ∧ (keyed (rows df) →
             (∀ r : row, r ∈ rows df → r !!! commitmentIndex ∈ key_cells (rows t)) →
             t' = t).
Proof.
  intros He Ht. unfold write_to_duckdb. rewrite He, Ht.
  destruct (negb _); [done|]. destruct (negb _); [done|]. simpl.
  intros [= <-]. split; [done|]. rewrite lookup_insert_eq.
  eexists. split; [done|]. unfold height. simpl.
  rewrite length_app, length_fmap.
  pose proof (anti_join_length (rows df) (rows t)).
  split; [done|]. split; [lia|].
  intros Hk Hcov. rewrite anti_join_covered by done. simpl.
  by rewrite app_nil_r, frame_eta.
Qed.

(** X4. The first write wins.  An append never replaces or duplicates a
    stored commitment: when the batch is laid out as the table, every row of
    the table after the write whose key was stored before is one of the rows
    stored before, also when the batch offers that key with other
    contents. *)
Theorem write_to_duckdb_first_write_wins (df t t' : DataFrame) (table_name : string)
    (db : gmap string DataFrame) (r : row) :
  db !! table_name = Some t →
  columns df = columns t →
  (write_to_duckdb df table_name db).1 !! table_name = Some t' →
  r ∈ rows t' →
  r !!! commitmentIndex ≠ Null →
  r !!! commitmentIndex ∈ key_cells (rows t) →
  r ∈ rows t.
Proof.
  intros Ht Hcols Ht' Hr Hnn Hk.
  destruct (is_empty df) eqn:He.
  { rewrite write_no_data in Ht' by done. simpl in Ht'. rewrite Ht in Ht'.
    by injection Ht' as <-. }
  destruct (write_append df t table_name db He Ht) as [Hw|(Hc & _ & _ & Hw)];
    rewrite Hw in Ht'.
  { rewrite Ht in Ht'. by injection Ht' as <-. }
  rewrite lookup_insert_eq in Ht'. injection Ht' as <-. simpl in Hr.
  apply elem_of_app in Hr as [?|Hr]; [done|]. exfalso.
  apply list_elem_of_fmap in Hr as (r0 & -> & Hr0).
  rewrite <- Hcols, rebind_lookup in Hnn, Hk by done.
  rewrite anti_join_filter in Hr0. apply list_elem_of_filter in Hr0 as [Hf _].
  apply fresh_key_spec in Hf as [?|?]; done.
Qed.

(** ** The cursor does not depend on the order of the rows *)

Lemma sql_max_Permutation (cs cs' : list cell) :
  cs ≡ₚ cs' → sql_max cs = sql_max cs'.
Proof.
  induction 1 as [|c cs cs' _ IH|c1 c2 cs|cs1 cs2 cs3 _ IH1 _ IH2].
  - done.
  - by rewrite !sql_max_cons, IH.
  - rewrite !sql_max_cons. destruct (sql_max cs) as [m|e]; [|done].
    destruct c1, c2, m; simpl; try done; do 2 f_equal; lia.
  - by rewrite IH1.
Qed.

(** X5. A table is a bag of rows: the cursor read from it is the same
    however its rows are ordered, errors included. *)
Theorem get_latest_block_number_row_order (table_name block_column : string)
    (db : gmap string DataFrame) (t t' : DataFrame) :
  db !! table_name = Some t →
  columns t' = columns t →
  rows t' ≡ₚ rows t →
  get_latest_block_number table_name block_column (<[table_name := t']> db)
  = get_latest_block_number table_name block_column db.
Proof.
  intros Ht Hcols Hrows. unfold get_latest_block_number.
  rewrite lookup_insert_eq, Ht, Hcols.
  destruct (require _ _); [|done]. simpl.
  rewrite (sql_max_Permutation (column block_column (rows t'))
                               (column block_column (rows t))); [done|].
  unfold column. by apply fmap_Permutation.
Qed.

(** * Further properties of the readers *)

(** ** The retry loop under any sequence of failures *)

Section retry_more.
Context {A : Type}.
Variable py : runtime.
Variable oracle : nat → option exn.
Variable body : result A.
Variable terminal : string.
Variable backoff_factor : float.

(** After [n] lock conflicts, a failure of another kind ends the loop. *)
Lemma retry_loop_propagates (n : nat) (e : exn) :
  ∀ (remaining a : nat) (d : float),
    locked py oracle a n → slept py (delays d backoff_factor n) →
    oracle (a + n) = Some e →
    (∀ msg, e = IOException msg → is_lock_conflict py msg = false) →
    (n < remaining)%nat →
    ∃ tr, retry_loop py oracle body terminal backoff_factor remaining a d
            = (tr, Raise e)
          ∧ attempts tr = S n
          ∧ total_wait tr = sum_seconds (delays d backoff_factor n).
Proof.
  induction n as [|n IH]; intros remaining a d Hlock Hsleep Hfail Hother Hlt;
    (destruct remaining as [|remaining]; [lia|]); simpl.
  - rewrite Nat.add_0_r in Hfail. rewrite Hfail.
    destruct e; try by eexists.
    rewrite (Hother msg eq_refl). by eexists.
  - apply locked_S in Hlock as [(msg & -> & ->) Hlock].
    simpl in Hsleep. apply slept_cons in Hsleep as [-> Hsleep].
    rewrite Nat.add_succ_r in Hfail.
    destruct (IH remaining (S a) (d * backoff_factor)%float) as (tr & -> & Hn & Hw);
      [done|done|done|done|lia|].
    eexists. split; [done|]. simpl. by rewrite Hn, Hw.
Qed.

(** After [n] lock conflicts and one more, a delay that [time.sleep] refuses
    ends the loop with the exception of [time.sleep]. *)
Lemma retry_loop_sleep_raises (n : nat) (e : exn) :
  ∀ (remaining a : nat) (d x : float),
    locked py oracle a (S n) → slept py (delays d backoff_factor n) →
    delays d backoff_factor (S n) !! n = Some x →
    time_sleep py x = Raise e →
    (n < remaining)%nat →
    ∃ tr, retry_loop py oracle body terminal backoff_factor remaining a d
            = (tr, Raise e)
          ∧ attempts tr = S n
          ∧ total_wait tr = sum_seconds (delays d backoff_factor n).
Proof.
  induction n as [|n IH]; intros remaining a d x Hlock Hsleep Hx Hraise Hlt;
    (destruct remaining as [|remaining]; [lia|]);
    apply locked_S in Hlock as [(msg & Hm & Hc) Hlock].
  - simpl. rewrite Hm, Hc. simpl in Hx. injection Hx as ->. rewrite Hraise.
    by eexists.
  - simpl in Hsleep. apply slept_cons in Hsleep as [Hd Hsleep].
    cbn [retry_loop]. rewrite Hm, Hc, Hd.
    destruct (IH remaining (S a) (d * backoff_factor)%float x) as (tr & -> & Hn & Hw);
      [done|done|done|done|lia|].
    eexists. split; [done|]. simpl. by rewrite Hn, Hw.
Qed.

(** Whatever the attempts run into: the result is the result of the body,
    or an exception; there are never more attempts than [remaining]; and the
    waits are the first delays of the loop, one per attempt that was
    retried. *)
Lemma retry_loop_bounds (remaining : nat) :
  ∀ (a : nat) (d : float),
    ∃ n, (n ≤ remaining)%nat
         ∧ (n ≤ attempts (retry_loop py oracle body terminal backoff_factor
                            remaining a d).1
              ≤ remaining)%nat
         ∧ (attempts (retry_loop py oracle body terminal backoff_factor
                        remaining a d).1
              ≤ S n)%nat
         ∧ total_wait (retry_loop py oracle body terminal backoff_factor
                         remaining a d).1
           = sum_seconds (delays d backoff_factor n)
         ∧ ((retry_loop py oracle body terminal backoff_factor remaining a d).2 = body
            ∨ ∃ e, (retry_loop py oracle body terminal backoff_factor
                      remaining a d).2
                   = Raise e).
Proof.
  induction remaining as [|remaining IH]; intros a d; simpl.
  { exists 0%nat. repeat split; try done; try lia. eauto. }
  destruct (oracle a) as [e|].
  2: { exists 0%nat. simpl. repeat split; try done; try lia. by left. }
  assert (Hstop : ∀ tr (e' : exn), attempts tr = 1%nat → total_wait tr = 0%Qc →
            ∃ n, (n ≤ S remaining)%nat
                 ∧ (n ≤ attempts tr ≤ S remaining)%nat ∧ (attempts tr ≤ S n)%nat
                 ∧ total_wait tr = sum_seconds (delays d backoff_factor n)
                 ∧ (Raise e' = body ∨ ∃ e'', Raise e' = @Raise A e'')).
  { intros tr e' Hn Hw. exists 0%nat. rewrite Hn, Hw.
    repeat split; try done; try lia. eauto. }
  destruct e; try (by apply Hstop).
  destruct (is_lock_conflict py msg); [|by apply Hstop].
  destruct (time_sleep py d); [|by apply Hstop].
  destruct (IH (S a) (d * backoff_factor)%float) as (n & Hle & Hatt & Hatt' & Hw & Hr).
  destruct (retry_loop _ _ _ _ _ _ _ _) as [tr r]. simpl in *.
  exists (S n). rewrite Hw. repeat split; try done; lia.
Qed.
End retry_more.

(** X7. Failures of another kind are not retried.  After [N] lock conflicts
    ([N] may be 0) whose delays [time.sleep] accepted, with
    [N < max_retries], any other exception of the next attempt (an I/O error
    that is no lock conflict, or any exception that is no
    [duckdb.IOException]) leaves [read_db] and [read_single_table]
    unchanged, after [N+1] attempts and without a further wait. *)
Theorem other_failures_propagate (py : runtime) (oracle : nat → option exn)
    (db : gmap string DataFrame) (db_filename table : string) (tables : list string)
    (max_retries : Z) (initial_delay backoff_factor : float) (N : nat) (e : exn) :
  locked py oracle 0 N →
  slept py (delays initial_delay backoff_factor N) →
  oracle N = Some e →
  (∀ msg, e = IOException msg → is_lock_conflict py msg = false) →
  Z.of_nat N < max_retries →
  (∃ tr, read_db py oracle db db_filename tables max_retries
           initial_delay backoff_factor
         = (tr, Raise e)
         ∧ attempts tr = S N
         ∧ total_wait tr = sum_seconds (delays initial_delay backoff_factor N))
  ∧ (∃ tr, read_single_table py oracle db db_filename table max_retries
             initial_delay backoff_factor
           = (tr, Raise e)
         ∧ attempts tr = S N
         ∧ total_wait tr = sum_seconds (delays initial_delay backoff_factor N)).
Proof.
  intros Hlock Hsleep Hfail Hother Hlt. unfold read_db, read_single_table.
  split; apply retry_loop_propagates; try done; lia.
Qed.

(** X8. Bounds of the retry loop, whatever goes wrong and in whatever order:
    [read_db] and [read_single_table] never make more than [max_retries]
    connection attempts, and the time they spend waiting is the sum of the
    first [n] delays the loop computes (the initial delay, then each time the
    last delay times the backoff factor, in floating point), for the number
    [n] of attempts that were retried, which is the number of attempts or
    one less. *)
Theorem retry_bounds (py : runtime) (oracle : nat → option exn)
    (db : gmap string DataFrame) (db_filename table : string) (tables : list string)
    (max_retries : Z) (initial_delay backoff_factor : float) :
  (∃ n, (n ≤ attempts (read_db py oracle db db_filename tables max_retries
                         initial_delay backoff_factor).1 ≤ S n)%nat
        ∧ (attempts (read_db py oracle db db_filename tables max_retries
                       initial_delay backoff_factor).1 ≤ Z.to_nat max_retries)%nat
        ∧ total_wait (read_db py oracle db db_filename tables max_retries
                        initial_delay backoff_factor).1
          = sum_seconds (delays initial_delay backoff_factor n))
  ∧ (∃ n, (n ≤ attempts (read_single_table py oracle db db_filename table
                           max_retries initial_delay backoff_factor).1 ≤ S n)%nat
        ∧ (attempts (read_single_table py oracle db db_filename table max_retries
                       initial_delay backoff_factor).1 ≤ Z.to_nat max_retries)%nat
        ∧ total_wait (read_single_table py oracle db db_filename table max_retries
                        initial_delay backoff_factor).1
          = sum_seconds (delays initial_delay backoff_factor n)).
Proof.
  unfold read_db, read_single_table. split.
  - destruct (retry_loop_bounds py oracle (read_tables db tables ∅)
                (read_db_failure db_filename max_retries) backoff_factor
                (Z.to_nat max_retries) 0%nat initial_delay)
      as (n & _ & [? ?] & ? & ? & _).
    exists n. repeat split; done.
  - destruct (retry_loop_bounds py oracle (select_from db table)
                (read_single_table_failure db_filename table max_retries)
                backoff_factor (Z.to_nat max_retries) 0%nat initial_delay)
      as (n & _ & [? ?] & ? & ? & _).
    exists n. repeat split; done.
Qed.

(** X20. A delay that [time.sleep] refuses ends the read.  After [N] lock
    conflicts whose delays were slept, one more lock conflict with
    [N < max_retries] makes the reader sleep for the next delay; when
    [time.sleep] raises for it (a negative delay, or one that is not a
    number), that exception leaves [read_db] and [read_single_table] after
    [N+1] attempts, and the attempts that were left are not made. *)
Theorem sleep_failure_propagates (py : runtime) (oracle : nat → option exn)
    (db : gmap string DataFrame) (db_filename table : string) (tables : list string)
    (max_retries : Z) (initial_delay backoff_factor : float) (N : nat)
    (x : float) (e : exn) :
  locked py oracle 0 (S N) →
  slept py (delays initial_delay backoff_factor N) →
  delays initial_delay backoff_factor (S N) !! N = Some x →
  time_sleep py x = Raise e →
  Z.of_nat N < max_retries →
  (∃ tr, read_db py oracle db db_filename tables max_retries
           initial_delay backoff_factor
         = (tr, Raise e)
         ∧ attempts tr = S N
         ∧ total_wait tr = sum_seconds (delays initial_delay backoff_factor N))
  ∧ (∃ tr, read_single_table py oracle db db_filename table max_retries
             initial_delay backoff_factor
           = (tr, Raise e)
         ∧ attempts tr = S N
         ∧ total_wait tr = sum_seconds (delays initial_delay backoff_factor N)).
Proof.
  intros Hlock Hsleep Hx Hraise Hlt. unfold read_db, read_single_table.
  split; apply (retry_loop_sleep_raises _ _ _ _ _ N e _ _ _ x); try done; lia.
Qed.

(** ** What a read returns *)




Lemma read_tables_ok (db : gmap string DataFrame) (tables : list string) :
  ∀ acc dfs : gmap string DataFrame,
    read_tables db tables acc = Ok dfs →
    (∀ t df, t ∈ tables → dfs !! t = Some df ↔ select_from db t = Ok df)
    ∧ (∀ t, t ∈ tables → is_Some (dfs !! t))
    ∧ ∀ t, t ∉ tables → dfs !! t = acc !! t.
Proof.
  induction tables as [|t0 ts IH]; intros acc dfs; simpl.
  { intros [= <-]. split; [by intros t df ?%elem_of_nil|].
    split; [by intros t ?%elem_of_nil|done]. }
  destruct (select_from db t0) as [df0|] eqn:Ht0; [|done].
  intros (Hin & Hsome & Hout)%IH.
  assert (Hhere : t0 ∉ ts → dfs !! t0 = Some df0).
  { intros Hnin. by rewrite (Hout t0 Hnin), lookup_insert_eq. }
  split; [|split].
  - intros t df Ht. destruct (decide (t ∈ ts)) as [Hts|Hts]; [by apply Hin|].
    apply elem_of_cons in Ht as [->|?]; [|done].
    rewrite (Hhere Hts), Ht0. split; congruence.
  - intros t Ht. destruct (decide (t ∈ ts)) as [Hts|Hts]; [by apply Hsome|].
    apply elem_of_cons in Ht as [->|?]; [|done]. by rewrite (Hhere Hts).
  - intros t Ht. apply not_elem_of_cons in Ht as [Hne Hts].
    by rewrite (Hout t Hts), lookup_insert_ne.
Qed.



(** ** [load_and_join_data] *)

Lemma join_dataframes_missing_table (dataframes : gmap string DataFrame) (name : string) :
  name ∈ ["encrypted_stores"; "commit_stores"; "commits_processed"] →
  dataframes !! name = None →
  ∃ k, join_dataframes dataframes = Raise (KeyError k).
Proof.
  intros Hname Hnone. unfold join_dataframes, getitem.
  repeat (apply elem_of_cons in Hname as [->|Hname]);
    [..|by apply elem_of_nil in Hname].
  - rewrite Hnone. simpl. eauto.
  - destruct (dataframes !! "encrypted_stores"); simpl; [|eauto].
    rewrite Hnone. simpl. eauto.
  - destruct (dataframes !! "encrypted_stores"); simpl; [|eauto].
    destruct (dataframes !! "commit_stores"); simpl; [|eauto].
    rewrite Hnone. simpl. eauto.
Qed.

(** X10. [load_and_join_data] needs all three tables in its list: when one
    of [encrypted_stores], [commit_stores], [commits_processed] is not among
    the requested tables, the result is the empty frame, whatever the
    database holds (the [KeyError] of the join is swallowed like any other
    exception). *)
Theorem load_and_join_data_incomplete_list (py : runtime)
    (oracle : nat → option exn)
    (db : gmap string DataFrame) (db_filename name : string) (tables : list string) :
  name ∈ ["encrypted_stores"; "commit_stores"; "commits_processed"] →
  name ∉ tables →
  (load_and_join_data py oracle db db_filename tables).2 = Ok empty_frame.
Proof.
  intros Hname Hnotin. unfold load_and_join_data, read_db.
  destruct (retry_loop_bounds py oracle (read_tables db tables ∅)
              (read_db_failure db_filename default_max_retries) default_backoff_factor
              (Z.to_nat default_max_retries) 0%nat default_initial_delay)
    as (_ & _ & _ & _ & _ & Hr).
  destruct (retry_loop _ _ _ _ _ _ _ _) as [tr r]. simpl in *.
  destruct Hr as [->|[e ->]]; [|done].
  destruct (read_tables db tables ∅) as [dfs|e] eqn:Hread; [|done]. simpl.
  destruct (read_tables_ok _ _ _ _ Hread) as (_ & _ & Hout).
  destruct (join_dataframes_missing_table dfs name Hname) as [k ->]; [|done].
  by rewrite (Hout name Hnotin).
Qed.

(** X11. How long [load_and_join_data] can block.  It reads with the
    default retry policy (5 attempts, delays 1, 2, 4, ...), so under any
    sequence of failures it makes at most 5 connection attempts and sleeps
    at most 1 + 2 + 4 + 8 + 16 = 31 seconds in all; the trace is the trace
    of the read. *)
Theorem load_and_join_data_wait_bound (py : runtime)
    (oracle : nat → option exn)
    (db : gmap string DataFrame) (db_filename : string) (tables : list string) :
  (load_and_join_data py oracle db db_filename tables).1
  = (read_db py oracle db db_filename tables default_max_retries
       default_initial_delay default_backoff_factor).1
  ∧ (attempts (load_and_join_data py oracle db db_filename tables).1 ≤ 5)%nat
  ∧ (total_wait (load_and_join_data py oracle db db_filename tables).1 ≤ Q2Qc 31)%Qc.
Proof.
  unfold load_and_join_data, read_db.
  destruct (retry_loop_bounds py oracle (read_tables db tables ∅)
              (read_db_failure db_filename default_max_retries) default_backoff_factor
              (Z.to_nat default_max_retries) 0%nat default_initial_delay)
    as (n & Hn & [_ Hatt] & _ & Hw & _).
  destruct (retry_loop _ _ _ _ _ _ _ _) as [tr r]. simpl in *.
  split; [done|]. split; [exact Hatt|]. rewrite Hw.
  change (Z.to_nat default_max_retries) with 5%nat in Hn.
  destruct n as [|[|[|[|[|[|n]]]]]]; [by vm_compute..|lia].
Qed.

(** * Further properties of the join engine *)

Lemma join_inner_keys_complete (left right out : DataFrame) (on : string) (k : cell) :
  join_inner left right on = Ok out → k ≠ Null →
  k ∈ column on (rows left) → k ∈ column on (rows right) →
  k ∈ column on (rows out).
Proof.
  intros Hj Hnn (l & -> & Hl)%list_elem_of_fmap (r & Hk & Hr)%list_elem_of_fmap.
  destruct (join_inner_ok _ _ _ _ Hj) as (Hon & _ & Hnd & _ & Hrows).
  set (others := filter (λ c, c ≠ on) (columns right)) in *.
  assert (Hin : merge_rows (columns left) others l r ∈ rows out).
  { rewrite Hrows. apply list_elem_of_bind. exists l. split; [|done].
    apply list_elem_of_fmap_2, list_elem_of_filter. split; [|done].
    apply sql_eq_true. done. }
  apply (elem_of_column on) in Hin.
  rewrite merge_rows_other in Hin; [done|].
  apply NoDup_app in Hnd as (_ & Hdisj & _). by apply Hdisj.
Qed.

(** X12. The commitments view has exactly the commitments that are in all
    three tables: when [join_dataframes] returns, a key is in the view if
    and only if it is not NULL and occurs in [encrypted_stores], in
    [commit_stores] and in [commits_processed]; and with unique keys in each
    table the height of the view is the number of keys of
    [encrypted_stores] that the two other tables have as well. *)
Theorem join_dataframes_exact_keys (dataframes : gmap string DataFrame)
    (A B C out : DataFrame) :
  dataframes !! "encrypted_stores" = Some A →
  dataframes !! "commit_stores" = Some B →
  dataframes !! "commits_processed" = Some C →
  join_dataframes dataframes = Ok out →
  (∀ k, k ∈ key_cells (rows out)
        ↔ k ≠ Null ∧ k ∈ key_cells (rows A) ∧ k ∈ key_cells (rows B)
          ∧ k ∈ key_cells (rows C))
  ∧ (unique_keys (rows A) → unique_keys (rows B) → unique_keys (rows C) →
     height out
     = length (filter (λ k, k ≠ Null ∧ k ∈ key_cells (rows B) ∧ k ∈ key_cells (rows C))
                      (key_cells (rows A)))).
Proof.
  intros HA HB HC Hout.
  destruct (join_dataframes_keys _ _ _ _ _ HA HB HC Hout) as [Hsound Huniq].
  assert (Hiff : ∀ k, k ∈ key_cells (rows out)
            ↔ k ≠ Null ∧ k ∈ key_cells (rows A) ∧ k ∈ key_cells (rows B)
              ∧ k ∈ key_cells (rows C)).
  { intros k. split; [apply Hsound|]. intros (Hnn & HkA & HkB & HkC).
    destruct (join_dataframes_ok _ _ Hout)
      as (A' & B' & C' & j1 & j2 & sel & j3 & j4
          & HA' & HB' & HC' & H1 & H2 & Hs & H3 & H4 & H5).
    rewrite HA in HA'. rewrite HB in HB'. rewrite HC in HC'.
    injection HA' as <-. injection HB' as <-. injection HC' as <-.
    unfold key_cells in *.
    rewrite (select_column _ _ _ commitmentIndex H5)
      by (unfold commitments_columns; in_list).
    rewrite (with_columns_column _ _ _ _ commitmentIndex H4) by done.
    apply (join_inner_keys_complete _ _ _ _ _ H3 Hnn).
    - rewrite (with_columns_column _ _ _ _ commitmentIndex H2) by done.
      by apply (join_inner_keys_complete _ _ _ _ _ H1).
    - rewrite (select_column _ _ _ commitmentIndex Hs) by left. done. }
  split; [done|]. intros HuA HuB HuC.
  replace (height out) with (length (key_cells (rows out)))
    by (unfold height, key_cells, column; by rewrite length_fmap).
  apply Permutation_length, NoDup_Permutation.
  - by apply Huniq.
  - by apply NoDup_filter.
  - intros k. rewrite Hiff, list_elem_of_filter. tauto.
Qed.

Lemma right_suffix_isSlash (y : string) : y +:+ "_right" ≠ "isSlash".
Proof.
  intros H.
  do 7 (destruct y as [|? y]; [discriminate H|];
        cbv [String.append] in H; fold String.append in H; injection H as _ H).
  destruct y; discriminate H.
Qed.

(** X13. Where the cells of the commitments view come from.  A row of the
    view belongs to a row [a] of [encrypted_stores], a row [b] of
    [commit_stores] and a row [c] of [commits_processed] with one key, and:
    every projected column that [encrypted_stores] has holds the value of
    [a], also when [commit_stores] has a column of that name (its
    [timestamp] and [block_number] are dropped); a projected column that
    only [commit_stores] has holds the value of [b]; [isSlash] holds the
    value of [c] when neither of the two other tables has such a column.
    ([txnHash] and [block_number_encrypted] are the two computed columns.) *)
Theorem join_dataframes_cells (dataframes : gmap string DataFrame) (out : DataFrame)
    (o : row) :
  join_dataframes dataframes = Ok out → o ∈ rows out →
  ∃ (A B C : DataFrame) (a b c : row),
    dataframes !! "encrypted_stores" = Some A
    ∧ dataframes !! "commit_stores" = Some B
    ∧ dataframes !! "commits_processed" = Some C
    ∧ a ∈ rows A ∧ b ∈ rows B ∧ c ∈ rows C
    ∧ a !!! commitmentIndex = b !!! commitmentIndex
    ∧ a !!! commitmentIndex = c !!! commitmentIndex
    ∧ (∀ x, x ∈ commitments_columns → x ≠ "txnHash" →
            x ≠ "block_number_encrypted" → x ∈ columns A →
            o !!! x = a !!! x)
    ∧ (∀ y, y ∈ commitments_columns → y ≠ "txnHash" →
            y ≠ "block_number_encrypted" → y ≠ commitmentIndex →
            y ∈ columns B → y ∉ columns A →
            o !!! y = b !!! y)
    ∧ ("isSlash" ∉ columns A → "isSlash" ∉ columns B →
       o !!! "isSlash" = c !!! "isSlash").
Proof.
  intros (A & B & C & j1 & j2 & sel & j3 & j4
          & HA & HB & HC & H1 & H2 & Hs & H3 & H4 & H5)%join_dataframes_ok Ho.
  destruct (select_ok _ _ _ H5) as (_ & _ & Hrows). rewrite Hrows in Ho.
  apply list_elem_of_fmap in Ho as (r4 & -> & Hr4).
  destruct (with_columns_new_cell _ _ _ _ r4 H4 Hr4) as (r3 & Hr3 & _ & Hr43).
  destruct (join_inner_row _ _ _ _ r3 H3 Hr3)
    as (l2 & rs & Hl2 & Hrs & Hk2 & _ & Hr32 & Hr3s).
  destruct (with_columns_new_cell _ _ _ _ l2 H2 Hl2) as (j & Hj & _ & Hl2j).
  destruct (join_inner_row _ _ _ _ j H1 Hj) as (a & b & Ha & Hb & Hab & _ & Hja & Hjb).
  destruct (select_ok _ _ _ Hs) as (_ & Hselcols & Hselrows).
  rewrite Hselrows in Hrs. apply list_elem_of_fmap in Hrs as (c & -> & Hc).
  rewrite project_lookup in Hk2 by left.
  destruct (with_columns_ok _ _ _ _ H2) as (Htxin & Hcols2 & _).
  rewrite bool_decide_eq_true_2 in Hcols2 by (apply Htxin; left).
  destruct (join_inner_ok _ _ _ _ H1) as (HonA & _ & _ & Hcols1 & _).
  exists A, B, C, a, b, c. repeat split; try done.
  - rewrite <- Hk2, Hl2j by done. symmetry. by apply Hja.
  - intros x Hx Htx Hbne HxA.
    rewrite project_lookup, Hr43 by done.
    rewrite Hr32 by (rewrite Hcols2, Hcols1; apply elem_of_app; by left).
    rewrite Hl2j by done. by apply Hja.
  - intros y Hy Htx Hbne Hkey HyB HyA.
    specialize (Hjb y HyB Hkey). unfold right_name in Hjb.
    rewrite bool_decide_eq_false_2 in Hjb by done.
    rewrite project_lookup, Hr43 by done.
    rewrite Hr32, Hl2j by done || (rewrite Hcols2, Hcols1; apply elem_of_app; right;
      apply (list_elem_of_fmap_2' _ _ y); [by apply list_elem_of_filter|];
      unfold right_name; by rewrite bool_decide_eq_false_2).
    done.
  - intros HsA HsB.
    assert (Hs2 : "isSlash" ∉ columns j2).
    { rewrite Hcols2, Hcols1. intros [?|Hin]%elem_of_app; [done|].
      apply list_elem_of_fmap in Hin as (y & Hy & [_ HyB]%list_elem_of_filter).
      unfold right_name in Hy. destruct (bool_decide _).
      - by apply (right_suffix_isSlash y).
      - by subst y. }
    specialize (Hr3s "isSlash"). unfold right_name in Hr3s.
    rewrite bool_decide_eq_false_2 in Hr3s by done.
    rewrite project_lookup, Hr43 by (done || (unfold commitments_columns; in_list)).
    rewrite Hr3s by (done || (rewrite Hselcols; in_list)).
    apply project_lookup. in_list.
Qed.

(** ** What the join needs from its inputs *)

Lemma list_ascii_of_string_app (s1 s2 : string) :
  list_ascii_of_string (s1 +:+ s2)
  = list_ascii_of_string s1 ++ list_ascii_of_string s2.
Proof.
  induction s1 as [|a s1 IH]; [done|].
  cbv [String.append]. fold String.append. simpl. by rewrite IH.
Qed.

Lemma right_name_suffix (lcols : list string) (y x : string) :
  right_name lcols y = x →
  ¬ list_ascii_of_string "_right" `suffix_of` list_ascii_of_string x →
  y = x ∧ y ∉ lcols.
Proof.
  unfold right_name. destruct (decide (y ∈ lcols)) as [Hin|Hnin].
  - rewrite bool_decide_eq_true_2 by done. intros <- Hsuf. destruct Hsuf.
    rewrite list_ascii_of_string_app. by eexists.
  - by rewrite bool_decide_eq_false_2.
Qed.

Lemma commitments_columns_no_suffix (x : string) :
  x ∈ commitments_columns →
  ¬ list_ascii_of_string "_right" `suffix_of` list_ascii_of_string x.
Proof.
  unfold commitments_columns. intros Hx.
  repeat (apply elem_of_cons in Hx as [->|Hx];
          [apply (bool_decide_unpack _); by vm_compute|]).
  by apply elem_of_nil in Hx.
Qed.

(** X14. The columns the join needs.  [join_dataframes] returns only when
    [commitmentIndex] is a column of all three tables, [isSlash] is a column
    of [commits_processed], and every projected column other than the
    computed [block_number_encrypted] is a column of [encrypted_stores] or
    of [commit_stores] (or is [isSlash]); so does [block_number], the source
    of [block_number_encrypted].  With any of these missing the join
    raises. *)
Theorem join_dataframes_needs_columns (dataframes : gmap string DataFrame)
    (out : DataFrame) :
  join_dataframes dataframes = Ok out →
  ∃ A B C : DataFrame,
    dataframes !! "encrypted_stores" = Some A
    ∧ dataframes !! "commit_stores" = Some B
    ∧ dataframes !! "commits_processed" = Some C
    ∧ commitmentIndex ∈ columns A ∧ commitmentIndex ∈ columns B
    ∧ commitmentIndex ∈ columns C ∧ "isSlash" ∈ columns C
    ∧ ("block_number" ∈ columns A ∨ "block_number" ∈ columns B)
    ∧ ∀ x, x ∈ commitments_columns → x ≠ "block_number_encrypted" →
           x ∈ columns A ∨ x ∈ columns B ∨ x = "isSlash".
Proof.
  intros (A & B & C & j1 & j2 & sel & j3 & j4
          & HA & HB & HC & H1 & H2 & Hs & H3 & H4 & H5)%join_dataframes_ok.
  destruct (join_inner_ok _ _ _ _ H1) as (HkA & HkB & _ & Hcols1 & _).
  destruct (with_columns_ok _ _ _ _ H2) as (Htxin & Hcols2 & _).
  rewrite bool_decide_eq_true_2 in Hcols2 by (apply Htxin; left).
  destruct (select_ok _ _ _ Hs) as (HselC & Hselcols & _).
  destruct (join_inner_ok _ _ _ _ H3) as (_ & _ & _ & Hcols3 & _).
  destruct (with_columns_ok _ _ _ _ H4) as (Hbn & Hcols4 & _).
  destruct (select_ok _ _ _ H5) as (Hall & _ & _).
  assert (Hj1 : ∀ x, ¬ list_ascii_of_string "_right" `suffix_of` list_ascii_of_string x →
            x ∈ columns j1 → x ∈ columns A ∨ x ∈ columns B).
  { intros x Hsuf. rewrite Hcols1. intros [?|Hin]%elem_of_app; [by left|right].
    apply list_elem_of_fmap in Hin as (y & Hy & [_ HyB]%list_elem_of_filter).
    symmetry in Hy. by destruct (right_name_suffix _ _ _ Hy Hsuf) as [<- _]. }
  assert (Hj3 : ∀ x, ¬ list_ascii_of_string "_right" `suffix_of` list_ascii_of_string x →
            x ∈ columns j3 → x ∈ columns A ∨ x ∈ columns B ∨ x = "isSlash").
  { intros x Hsuf. rewrite Hcols3. intros [Hin|Hin]%elem_of_app.
    - rewrite Hcols2 in Hin. destruct (Hj1 x Hsuf Hin); tauto.
    - apply list_elem_of_fmap in Hin as (y & Hy & [_ Hysel]%list_elem_of_filter).
      symmetry in Hy. destruct (right_name_suffix _ _ _ Hy Hsuf) as [<- _].
      rewrite Hselcols in Hysel.
      apply elem_of_cons in Hysel as [->|Hysel]; [left; exact HkA|].
      apply list_elem_of_singleton in Hysel. tauto. }
  exists A, B, C. repeat split; try done.
  - apply HselC. left.
  - apply HselC. in_list.
  - destruct (Hj3 "block_number") as [?|[?|?]]; [| |by left|by right|done].
    + apply (bool_decide_unpack _). by vm_compute.
    + apply Hbn. left.
  - intros x Hx Hne. apply Hj3; [by apply commitments_columns_no_suffix|].
    specialize (Hall x Hx). rewrite Hcols4 in Hall.
    destruct (bool_decide _); [done|].
    apply elem_of_app in Hall as [?|?%list_elem_of_singleton]; done.
Qed.

(** * Further properties of the cycle *)

Lemma write_all_keeps_rows (items : list (string * DataFrame)) :
  ∀ (db : gmap string DataFrame) (name : string) (t : DataFrame),
    db !! name = Some t →
    ∃ t', (write_all items db).1 !! name = Some t'
          ∧ columns t' = columns t
          ∧ rows t `prefix_of` rows t'.
Proof.
  induction items as [|[written df] items IH]; intros db name t Ht; simpl.
  { by exists t. }
  destruct (write_keeps_rows df written name db t Ht) as (t1 & Ht1 & Hc1 & Hp1).
  destruct (write_to_duckdb df written db) as [db1 [info|e]]; simpl in *;
    [|by exists t1].
  destruct (IH db1 name t1 Ht1) as (t2 & Ht2 & Hc2 & Hp2).
  destruct (write_all items db1) as [db2 r]. simpl in *.
  exists t2. split; [done|]. split; [congruence|]. by etrans.
Qed.

Lemma write_all_other (items : list (string * DataFrame)) :
  ∀ (db : gmap string DataFrame) (name : string),
    name ∉ items.*1 → (write_all items db).1 !! name = db !! name.
Proof.
  induction items as [|[written df] items IH]; intros db name Hname; simpl; [done|].
  rewrite fmap_cons, not_elem_of_cons in Hname. destruct Hname as [Hne Hname].
  pose proof (write_other_table df written name db Hne) as Hw.
  destruct (write_to_duckdb df written db) as [db1 [info|e]]; simpl in *; [|done].
  specialize (IH db1 name Hname).
  destruct (write_all items db1) as [db2 r]. simpl in *. congruence.
Qed.



Lemma get_events_keeps_rows (fetch : string → Z → result DataFrame)
    (db : gmap string DataFrame) (name : string) (t : DataFrame) :
  db !! name = Some t →
  ∃ t', (get_events fetch db).1 !! name = Some t'
        ∧ columns t' = columns t
        ∧ rows t `prefix_of` rows t'.
Proof.
  intros Ht. unfold get_events.
  destruct (latest_block_numbers tables db ∅) as [lb|e]; [|by exists t].
  destruct (fetch_events fetch tables lb []) as [dfs|e]; [|by exists t].
  destruct (write_all_keeps_rows dfs db name t Ht) as (t' & Ht' & Hc & Hp).
  destruct (write_all dfs db) as [db' [infos|e]]; simpl in *; by exists t'.
Qed.

(** X15. A cycle only appends.  Whatever the event source returns and
    wherever the cycle stops, every table that existed before [get_events]
    exists afterwards with the same columns and with its former rows as a
    prefix of its rows; tables other than the three event tables are not
    touched at all. *)
Theorem get_events_append_only (fetch : string → Z → result DataFrame)
    (db : gmap string DataFrame) (name : string) (t : DataFrame) :
  db !! name = Some t →
  ∃ t', (get_events fetch db).1 !! name = Some t'
        ∧ columns t' = columns t
        ∧ rows t `prefix_of` rows t'
        ∧ (name ∉ table_name <$> tables → t' = t).
Proof.
  intros Ht. unfold get_events.
  destruct (latest_block_numbers tables db ∅) as [lb|e]; [|by exists t].
  destruct (fetch_events fetch tables lb []) as [dfs|e] eqn:Hdfs; [|by exists t].
  destruct (write_all_keeps_rows dfs db name t Ht) as (t' & Ht' & Hc & Hp).
  pose proof (write_all_other dfs db name) as Hother.
  rewrite (fetch_events_tables_names _ _ _ Hdfs) in Hother.
  destruct (write_all dfs db) as [db' [infos|e]]; simpl in *;
    exists t'; repeat split; try done;
    intros Hname; rewrite Hother, Ht in Ht' by done; by injection Ht'.
Qed.

Lemma fetch_events_raises (fetch : string → Z → result DataFrame)
    (latest_blocks : gmap string Z) (t : table_spec) (ts : list table_spec) :
  t ∈ ts →
  (∀ from, ∃ e, fetch (event_config t) from = Raise e ∧ ∀ msg, e ≠ ValueError msg) →
  ∀ dataframes, ∃ e, fetch_events fetch ts latest_blocks dataframes = Raise e.
Proof.
  intros Ht Hfail. induction ts as [|t0 ts IH]; intros dataframes.
  { by apply elem_of_nil in Ht. }
  simpl. apply elem_of_cons in Ht as [<-|Ht].
  - destruct (Hfail (from_block latest_blocks (table_name t))) as (e & -> & Hne).
    simpl. destruct e; simpl; eauto. by destruct (Hne msg).
  - destruct (try_except _ _) as [df|e]; simpl; [by apply IH|eauto].
Qed.

(** X16. The fetches come before the writes: when the event source fails
    for one of the three tables with anything but the "no data" signal
    ([ValueError]), [get_events] raises and the store is exactly as it was,
    also for the tables whose fetch had succeeded. *)
Theorem get_events_fetch_failure (fetch : string → Z → result DataFrame)
    (db : gmap string DataFrame) (t : table_spec) :
  t ∈ tables →
  (∀ from, ∃ e, fetch (event_config t) from = Raise e ∧ ∀ msg, e ≠ ValueError msg) →
  (get_events fetch db).1 = db ∧ ∃ e, (get_events fetch db).2 = Raise e.
Proof.
  intros Ht Hfail. unfold get_events.
  destruct (latest_block_numbers tables db ∅) as [lb|e]; [|by eauto].
  destruct (fetch_events_raises fetch lb t tables Ht Hfail []) as [e ->]. eauto.
Qed.






Lemma poll_keeps_rows (source : nat → string → Z → result DataFrame) (n : nat) :
  ∀ (k : nat) (db : gmap string DataFrame) (name : string) (t : DataFrame),
    db !! name = Some t →
    ∃ t', (poll source n k db).1.1 !! name = Some t'
          ∧ columns t' = columns t
          ∧ rows t `prefix_of` rows t'.
Proof.
  induction n as [|n IH]; intros k db name t Ht; simpl.
  { by exists t. }
  destruct (get_events_keeps_rows (source k) db name t Ht) as (t1 & Ht1 & Hc1 & Hp1).
  destruct (get_events (source k) db) as [db1 [view|e]]; simpl in *; [|by exists t1].
  destruct (IH (S k) db1 name t1 Ht1) as (t2 & Ht2 & Hc2 & Hp2).
  destruct (poll source n (S k) db1) as [[db2 tr] r]. simpl in *.
  exists t2. split; [done|]. split; [congruence|]. by etrans.
Qed.

(** X19. The poll loop.  However many cycles have run and whatever the
    event source answered in each, a table that existed at the start still
    exists with its columns and with its rows as a prefix of its rows; the
    loop sleeps 30 seconds after each cycle that returned, and only an
    exception of a cycle stops it. *)
Theorem poll_append_only (source : nat → string → Z → result DataFrame) (n k : nat)
    (db : gmap string DataFrame) (name : string) (t : DataFrame) :
  db !! name = Some t →
  (∃ t', (poll source n k db).1.1 !! name = Some t'
         ∧ columns t' = columns t
         ∧ rows t `prefix_of` rows t')
  ∧ (poll source n k db).1.2
    = replicate (length (poll source n k db).1.2) (ESleep 30%float)
  ∧ (length (poll source n k db).1.2 ≤ n)%nat
  ∧ ((poll source n k db).2 = None → length (poll source n k db).1.2 = n).
Proof.
  intros Ht. split; [by apply poll_keeps_rows|]. clear Ht.
  revert k db. induction n as [|n IH]; intros k db; simpl; [done|].
  destruct (get_events (source k) db) as [db1 [view|e]]; simpl.
  - specialize (IH (S k) db1).
    destruct (poll source n (S k) db1) as [[db2 tr] r]. simpl in *.
    destruct IH as (Htr & Hle & Hn). split; [by rewrite <- Htr|].
    split; [lia|]. intros Hr. by rewrite Hn.
  - split; [done|]. split; [lia|done].
Qed.

(** * Instances *)

Ltac decided := apply (bool_decide_unpack _); by vm_compute.

Lemma stored_db_layout (t : DataFrame) :
  stored_db !! "commit_stores" = Some t → columns incoming_commits = columns t.
Proof. intros Ht. vm_compute in Ht. by injection Ht as <-. Defined.

Lemma stored_db_layout_unique (t : DataFrame) :
  stored_db !! "commit_stores" = Some t →
  columns incoming_commits = columns t ∧ unique_keys (rows t).
Proof.
  intros Ht. vm_compute in Ht. injection Ht as <-. split; [done|].
  unfold unique_keys. decided.
Defined.

Lemma write_to_duckdb_idempotent_witness :
  keyed (rows incoming_commits)
  ∧ (write_to_duckdb incoming_commits "commit_stores"
       (write_to_duckdb incoming_commits "commit_stores" stored_db).1).1
    = (write_to_duckdb incoming_commits "commit_stores" stored_db).1.
Proof.
  assert (Hk : keyed (rows incoming_commits)) by (unfold keyed; decided).
  split; [exact Hk|].
  exact (proj1 (write_to_duckdb_idempotent incoming_commits "commit_stores" stored_db
                  Hk stored_db_layout)).
Defined.

Lemma write_to_duckdb_unique_keys_witness :
  unique_keys (rows incoming_commits)
  ∧ ∃ t1, (write_to_duckdb incoming_commits "commit_stores" stored_db).1
            !! "commit_stores" = Some t1
          ∧ height t1 = 2%nat ∧ unique_keys (rows t1).
Proof.
  assert (Hu : unique_keys (rows incoming_commits)) by (unfold unique_keys; decided).
  assert (Hk : keyed (rows incoming_commits)) by (unfold keyed; decided).
  split; [exact Hu|].
  eexists. split; [by vm_compute|]. split; [by vm_compute|].
  apply (write_to_duckdb_unique_keys incoming_commits "commit_stores" stored_db _
           Hu Hk stored_db_layout_unique).
  by vm_compute.
Defined.

Lemma join_dataframes_bounded_witness :
  unique_keys (rows sample_encrypted) ∧ unique_keys (rows sample_commits)
  ∧ unique_keys (rows sample_processed)
  ∧ join_dataframes sample_db = Ok sample_view
  ∧ height sample_view = 2%nat
  ∧ (height sample_view
     ≤ height sample_encrypted `min` (height sample_commits `min` height sample_processed))%nat
  ∧ NoDup (rows sample_view).
Proof.
  assert (HA : unique_keys (rows sample_encrypted)) by (unfold unique_keys; decided).
  assert (HB : unique_keys (rows sample_commits)) by (unfold unique_keys; decided).
  assert (HC : unique_keys (rows sample_processed)) by (unfold unique_keys; decided).
  destruct (join_dataframes_bounded sample_db sample_encrypted sample_commits
              sample_processed sample_view eq_refl eq_refl eq_refl HA HB HC
              sample_view_joined) as (Hle & Hnd & _).
  repeat split; try done.
Defined.


Lemma two_conflicts_locked : locked sample_runtime two_conflicts 0 2.
Proof.
  intros k Hk. exists "IO Error: Could not set lock on file: Conflicting lock is held".
  destruct k as [|[|k]]; [by vm_compute..|lia].
Defined.

Lemma one_conflict_locked : locked sample_runtime one_conflict 0 1.
Proof.
  intros k Hk. exists "IO Error: Could not set lock on file: Conflicting lock is held".
  destruct k as [|k]; [by vm_compute|lia].
Defined.

Lemma default_delays_slept :
  slept sample_runtime (delays default_initial_delay default_backoff_factor 2).
Proof.
  intros d Hd. simpl in Hd.
  apply elem_of_cons in Hd as [->|Hd]; [by vm_compute|].
  apply list_elem_of_singleton in Hd as ->. by vm_compute.
Defined.

Lemma default_delays_exact :
  exact_delays default_initial_delay default_backoff_factor 2.
Proof.
  intros k d Hk. destruct k as [|[|k]]; simpl in Hk; [..|done];
    injection Hk as <-; apply Qc_is_canon; by vm_compute.
Defined.

(** C4, counterexample. A negative initial delay: the first lock conflict
    is followed by [time.sleep(-1.0)], whose [ValueError] leaves the
    function, although the next attempt would have opened the database. *)
Lemma retry_policy_negative_delay :
  ¬ (∀ (py : runtime) (oracle : nat → option exn) (db : gmap string DataFrame)
       (db_filename : string) (tables : list string) (max_retries : Z)
       (initial_delay backoff_factor : float) (N : nat),
       locked py oracle 0 N → Z.of_nat N < max_retries → oracle N = None →
       ∃ tr, read_db py oracle db db_filename tables max_retries
               initial_delay backoff_factor
             = (tr, read_tables db tables ∅)
             ∧ attempts tr = S N
             ∧ total_wait tr
               = geometric (seconds initial_delay) (seconds backoff_factor) N).
Proof.
  intros H.
  destruct (H sample_runtime one_conflict ∅ "mev_commit.duckdb" [] 5 (-1)%float
              2%float 1%nat one_conflict_locked) as (tr & Htr & _); [done|done|].
  vm_compute in Htr. discriminate Htr.
Qed.

Lemma retry_policy_witness :
  locked sample_runtime two_conflicts 0 2
  ∧ slept sample_runtime (delays default_initial_delay default_backoff_factor 2)
  ∧ exact_delays default_initial_delay default_backoff_factor 2
  ∧ (∃ tr, read_db sample_runtime two_conflicts sample_db "mev_commit.duckdb"
             ["encrypted_stores"; "commit_stores"; "commits_processed"]
             default_max_retries default_initial_delay default_backoff_factor
           = (tr, Ok sample_db)
         ∧ attempts tr = 3%nat
         ∧ total_wait tr = Q2Qc 3
         ∧ total_wait tr
           = geometric (seconds default_initial_delay)
               (seconds default_backoff_factor) 2)
  ∧ (∃ tr, read_db sample_runtime two_conflicts sample_db "mev_commit.duckdb"
             ["encrypted_stores"; "commit_stores"; "commits_processed"]
             2 default_initial_delay default_backoff_factor
           = (tr, Raise (PyException
                "Failed to read from mev_commit.duckdb after 2 attempts due to lock conflicts."))
         ∧ attempts tr = 2%nat).
Proof.
  split; [exact two_conflicts_locked|]. split; [exact default_delays_slept|].
  split; [exact default_delays_exact|]. split.
  - destruct (retry_policy sample_runtime two_conflicts sample_db "mev_commit.duckdb"
                "commit_stores"
                ["encrypted_stores"; "commit_stores"; "commits_processed"]
                default_max_retries default_initial_delay default_backoff_factor 2
                two_conflicts_locked default_delays_slept) as [Hok _].
    destruct Hok as [(tr & Htr & Hn & Hw & Hg) _]; [done|done|].
    exists tr. split; [|split; [done|split]].
    + rewrite Htr. f_equal; by vm_compute.
    + rewrite Hw. apply Qc_is_canon. by vm_compute.
    + exact (Hg default_delays_exact).
  - destruct (retry_policy sample_runtime two_conflicts sample_db "mev_commit.duckdb"
                "commit_stores"
                ["encrypted_stores"; "commit_stores"; "commits_processed"]
                2 default_initial_delay default_backoff_factor 2
                two_conflicts_locked default_delays_slept) as [_ Hfail].
    destruct Hfail as [(tr & Htr & Hn) _]; [done|].
    exists tr. split; [|done]. rewrite Htr. by vm_compute.
Defined.

Lemma no_retries_no_read_witness :
  0 ≤ 0
  ∧ read_db sample_runtime (λ _, None) sample_db "mev_commit.duckdb" ["commit_stores"]
      0 default_initial_delay default_backoff_factor
    = ([], Raise (PyException
         "Failed to read from mev_commit.duckdb after 0 attempts due to lock conflicts."))
  ∧ read_single_table sample_runtime (λ _, None) sample_db "mev_commit.duckdb"
      "commit_stores" (-1) default_initial_delay default_backoff_factor
    = ([], Raise (PyException
         "Failed to read table 'commit_stores' from mev_commit.duckdb after -1 attempts due to lock conflicts.")).
Proof.
  split; [done|]. split.
  - apply (no_retries_no_read sample_runtime (λ _, None) sample_db "mev_commit.duckdb"
             "commit_stores" ["commit_stores"] 0 default_initial_delay
             default_backoff_factor). done.
  - apply (no_retries_no_read sample_runtime (λ _, None) sample_db "mev_commit.duckdb"
             "commit_stores" ["commit_stores"] (-1) default_initial_delay
             default_backoff_factor). done.
Defined.





Lemma null_hash_view_joined : join_dataframes null_hash_db = Ok null_hash_view.
Proof. vm_compute. reflexivity. Qed.

(** C7, counterexample. An opened commitment whose [txnHash] is NULL: the
    sum of ["0x"] and NULL is NULL, so the view holds NULL, which does not
    start with ["0x"]. *)
Lemma txnHash_null_stays_null :
  ¬ (∀ (dataframes : gmap string DataFrame) (out : DataFrame) (o : row),
       join_dataframes dataframes = Ok out → o ∈ rows out →
       ∃ s, o !!! "txnHash" = Str ("0x" +:+ s)).
Proof.
  intros H.
  assert (Hrow : ∃ o : row, rows null_hash_view = [o] ∧ o !!! "txnHash" = Null).
  { eexists. split; vm_compute; reflexivity. }
  destruct Hrow as (o & Hrows & Hnull).
  destruct (H null_hash_db null_hash_view o null_hash_view_joined) as [s Hs].
  - rewrite Hrows. left.
  - rewrite Hnull in Hs. discriminate Hs.
Qed.

Lemma txnHash_prefixed_witness :
  join_dataframes sample_db = Ok sample_view
  ∧ column "txnHash" (rows sample_view) = [Str "0x0xaa"; Str "0xbb"]
  ∧ ∀ o : row, o ∈ rows sample_view →
      ∃ b : row,
        b ∈ rows sample_commits ∧ b !!! commitmentIndex = o !!! commitmentIndex
        ∧ ((b !!! "txnHash" = Null ∧ o !!! "txnHash" = Null)
           ∨ ∃ s, b !!! "txnHash" = Str s ∧ o !!! "txnHash" = Str ("0x" +:+ s)).
Proof.
  split; [exact sample_view_joined|]. split; [vm_compute; reflexivity|].
  destruct (txnHash_prefixed sample_db sample_view sample_view_joined)
    as (A & B & HA & HB & _ & Hrow & _).
  assert (HA' : sample_db !! "encrypted_stores" = Some sample_encrypted) by reflexivity.
  assert (HB' : sample_db !! "commit_stores" = Some sample_commits) by reflexivity.
  rewrite HA' in HA. rewrite HB' in HB. injection HA as <-. injection HB as <-.
  intros o Ho. destruct (Hrow o Ho) as (a & b & _ & Hb & _ & Hkey & Hcase).
  exists b. split; [exact Hb|]. split; [exact Hkey|]. exact Hcase.
Defined.

Lemma commitments_view_columns_witness :
  join_dataframes sample_db = Ok sample_view
  ∧ length (columns sample_view) = 18%nat
  ∧ column "block_number_encrypted" (rows sample_view) = [Int 10; Int 11]
  ∧ ∀ o : row, o ∈ rows sample_view →
      ∃ a : row, a ∈ rows sample_encrypted
        ∧ a !!! commitmentIndex = o !!! commitmentIndex
        ∧ o !!! "block_number_encrypted" = a !!! "block_number".
Proof.
  split; [exact sample_view_joined|].
  destruct (commitments_view_columns sample_db sample_view sample_view_joined)
    as (_ & Hlen & _ & Hbn).
  split; [exact Hlen|]. split; [by vm_compute|].
  apply (Hbn sample_encrypted); [done|].
  unfold sample_encrypted. simpl. in_list.
Defined.

(** ** Instances of the further properties *)

Lemma stored_db_commit_stores : stored_db !! "commit_stores" = Some stored_commits.
Proof. by vm_compute. Defined.

Lemma write_to_duckdb_append_only_witness :
  stored_db !! "commit_stores" = Some stored_commits
  ∧ ∃ t', (write_to_duckdb incoming_commits "commit_stores" stored_db).1
            !! "commit_stores" = Some t'
          ∧ height t' = 2%nat
          ∧ columns t' = columns stored_commits
          ∧ rows stored_commits `prefix_of` rows t'.
Proof.
  split; [exact stored_db_commit_stores|].
  destruct (write_to_duckdb_append_only incoming_commits "commit_stores" "commit_stores"
              stored_db stored_commits stored_db_commit_stores)
    as (t' & Ht' & Hc & Hp & _).
  exists t'. repeat split; try done.
  vm_compute in Ht'. by injection Ht' as <-.
Defined.

Lemma write_to_duckdb_reports_offered_witness :
  (write_to_duckdb incoming_commits "commit_stores" stored_db).2
  = Ok "commit_stores: inserted 2 new records"
  ∧ ∃ t', (write_to_duckdb incoming_commits "commit_stores" stored_db).1
            !! "commit_stores" = Some t'
          ∧ height t' = (height stored_commits + 1)%nat.
Proof.
  assert (Hs : (write_to_duckdb incoming_commits "commit_stores" stored_db).2
               = Ok "commit_stores: inserted 2 new records") by by vm_compute.
  split; [exact Hs|].
  destruct (write_to_duckdb_reports_offered incoming_commits stored_commits
              "commit_stores" _ stored_db eq_refl stored_db_commit_stores Hs)
    as (_ & t' & Ht' & Hh & _).
  exists t'. split; [exact Ht'|]. rewrite Hh. by vm_compute.
Defined.

(** The key ["a"] offered again with another block number: the stored row
    stays. *)
Lemma write_to_duckdb_first_write_wins_witness :
  (write_to_duckdb (mkDF sample_columns [keyed_row (Str "a") 99])
     "commit_stores" stored_db).1 !! "commit_stores" = Some stored_commits
  ∧ keyed_row (Str "a") 7 ∈ rows stored_commits.
Proof.
  assert (Hw : (write_to_duckdb (mkDF sample_columns [keyed_row (Str "a") 99])
                  "commit_stores" stored_db).1 !! "commit_stores"
               = Some stored_commits) by by vm_compute.
  split; [exact Hw|].
  apply (write_to_duckdb_first_write_wins
           (mkDF sample_columns [keyed_row (Str "a") 99]) stored_commits stored_commits
           "commit_stores" stored_db (keyed_row (Str "a") 7)
           stored_db_commit_stores eq_refl Hw).
  - unfold stored_commits. simpl. left.
  - by vm_compute.
  - vm_compute. left.
Defined.

Lemma get_latest_block_number_row_order_witness :
  get_latest_block_number "commit_stores" "block_number"
    (<["commit_stores" := mkDF sample_columns
                            [keyed_row (Str "b") 9; keyed_row (Str "a") 7]]>
       {[ "commit_stores" := incoming_commits ]})
  = get_latest_block_number "commit_stores" "block_number"
      {[ "commit_stores" := incoming_commits ]}.
Proof.
  apply (get_latest_block_number_row_order "commit_stores" "block_number"
           {[ "commit_stores" := incoming_commits ]} incoming_commits).
  - by vm_compute.
  - done.
  - unfold incoming_commits. simpl. apply Permutation_swap.
Defined.

Lemma conflict_then_disk_full_locked : locked sample_runtime conflict_then_disk_full 0 1.
Proof.
  intros k Hk. exists "IO Error: Could not set lock on file: Conflicting lock is held".
  destruct k as [|k]; [by vm_compute|lia].
Defined.

Lemma default_delay_slept :
  slept sample_runtime (delays default_initial_delay default_backoff_factor 1).
Proof.
  intros d Hd. simpl in Hd. apply list_elem_of_singleton in Hd as ->. by vm_compute.
Defined.

Lemma other_failures_propagate_witness :
  ∃ tr, read_db sample_runtime conflict_then_disk_full sample_db "mev_commit.duckdb"
          ["commit_stores"]
          default_max_retries default_initial_delay default_backoff_factor
        = (tr, Raise (IOException "IO Error: No space left on device"))
        ∧ attempts tr = 2%nat
        ∧ total_wait tr = Q2Qc 1.
Proof.
  destruct (other_failures_propagate sample_runtime conflict_then_disk_full sample_db
              "mev_commit.duckdb" "commit_stores" ["commit_stores"]
              default_max_retries default_initial_delay default_backoff_factor 1
              (IOException "IO Error: No space left on device")
              conflict_then_disk_full_locked default_delay_slept eq_refl)
    as [(tr & Htr & Hn & Hw) _].
  - intros msg [= <-]. by vm_compute.
  - done.
  - exists tr. split; [exact Htr|]. split; [exact Hn|]. rewrite Hw.
    apply Qc_is_canon. by vm_compute.
Defined.

Lemma sleep_failure_propagates_witness :
  ∃ tr, read_db sample_runtime one_conflict sample_db "mev_commit.duckdb"
          ["commit_stores"] default_max_retries (-1)%float default_backoff_factor
        = (tr, Raise (ValueError "sleep length must be non-negative"))
        ∧ attempts tr = 1%nat
        ∧ total_wait tr = 0%Qc.
Proof.
  destruct (sleep_failure_propagates sample_runtime one_conflict sample_db
              "mev_commit.duckdb" "commit_stores" ["commit_stores"]
              default_max_retries (-1)%float default_backoff_factor 0
              (-1)%float (ValueError "sleep length must be non-negative")
              one_conflict_locked)
    as [(tr & Htr & Hn & Hw) _].
  - intros d Hd. by apply elem_of_nil in Hd.
  - reflexivity.
  - vm_compute. reflexivity.
  - done.
  - exists tr. split; [exact Htr|]. split; [exact Hn|]. exact Hw.
Defined.


Lemma load_and_join_data_incomplete_list_witness :
  (load_and_join_data sample_runtime (λ _, None) sample_db "mev_commit.duckdb"
     ["encrypted_stores"; "commit_stores"]).2 = Ok empty_frame.
Proof.
  apply (load_and_join_data_incomplete_list sample_runtime (λ _, None) sample_db
           "mev_commit.duckdb" "commits_processed").
  - in_list.
  - apply (bool_decide_unpack _). by vm_compute.
Defined.

Lemma join_dataframes_exact_keys_witness :
  join_dataframes sample_db = Ok sample_view
  ∧ key_cells (rows sample_view) = [Str "c1"; Str "c2"]
  ∧ (Str "c3" ∈ key_cells (rows sample_view)
     ↔ Str "c3" ≠ Null ∧ Str "c3" ∈ key_cells (rows sample_encrypted)
       ∧ Str "c3" ∈ key_cells (rows sample_commits)
       ∧ Str "c3" ∈ key_cells (rows sample_processed))
  ∧ height sample_view
    = length (filter (λ k, k ≠ Null ∧ k ∈ key_cells (rows sample_commits)
                             ∧ k ∈ key_cells (rows sample_processed))
                     (key_cells (rows sample_encrypted))).
Proof.
  split; [exact sample_view_joined|]. split; [by vm_compute|].
  destruct (join_dataframes_exact_keys sample_db sample_encrypted sample_commits
              sample_processed sample_view eq_refl eq_refl eq_refl sample_view_joined)
    as [Hiff Hcount].
  split; [exact (Hiff (Str "c3"))|].
  apply Hcount; unfold unique_keys; decided.
Defined.

Lemma join_dataframes_cells_witness :
  join_dataframes sample_db = Ok sample_view
  ∧ ∀ o : row, o ∈ rows sample_view →
      ∃ a c : row,
        a ∈ rows sample_encrypted ∧ c ∈ rows sample_processed
        ∧ a !!! commitmentIndex = c !!! commitmentIndex
        ∧ o !!! "timestamp" = a !!! "timestamp"
        ∧ o !!! "isSlash" = c !!! "isSlash".
Proof.
  split; [exact sample_view_joined|].
  intros o Ho.
  destruct (join_dataframes_cells sample_db sample_view o sample_view_joined Ho)
    as (A & B & C & a & b & c & HA & HB & HC & Ha & Hb & Hc & Hab & Hac
        & HfromA & HfromB & Hslash).
  assert (A = sample_encrypted) as -> by (apply (inj Some); by rewrite <- HA).
  assert (B = sample_commits) as -> by (apply (inj Some); by rewrite <- HB).
  assert (C = sample_processed) as -> by (apply (inj Some); by rewrite <- HC).
  exists a, c. split; [exact Ha|]. split; [exact Hc|]. split; [exact Hac|]. split.
  - apply HfromA; [unfold commitments_columns; in_list|done|done|].
    unfold sample_encrypted. simpl. in_list.
  - apply Hslash.
    + unfold sample_encrypted. simpl. apply (bool_decide_unpack _). by vm_compute.
    + unfold sample_commits. simpl. apply (bool_decide_unpack _). by vm_compute.
Defined.

Lemma join_dataframes_needs_columns_witness :
  join_dataframes sample_db = Ok sample_view
  ∧ ∃ A B C : DataFrame,
      sample_db !! "encrypted_stores" = Some A
      ∧ sample_db !! "commit_stores" = Some B
      ∧ sample_db !! "commits_processed" = Some C
      ∧ "isSlash" ∈ columns C
      ∧ ("bidHash" ∈ columns A ∨ "bidHash" ∈ columns B ∨ "bidHash" = "isSlash").
Proof.
  split; [exact sample_view_joined|].
  destruct (join_dataframes_needs_columns sample_db sample_view sample_view_joined)
    as (A & B & C & HA & HB & HC & _ & _ & _ & Hs & _ & Hall).
  exists A, B, C. repeat split; try done.
  apply Hall; [unfold commitments_columns; in_list|done].
Defined.

Lemma get_events_append_only_witness :
  stored_db !! "commit_stores" = Some stored_commits
  ∧ ∃ t', (get_events sample_fetch stored_db).1 !! "commit_stores" = Some t'
          ∧ height t' = 2%nat
          ∧ columns t' = columns stored_commits
          ∧ rows stored_commits `prefix_of` rows t'.
Proof.
  split; [exact stored_db_commit_stores|].
  destruct (get_events_append_only sample_fetch stored_db "commit_stores" stored_commits
              stored_db_commit_stores) as (t' & Ht' & Hc & Hp & _).
  exists t'. repeat split; try done.
  vm_compute in Ht'. by injection Ht' as <-.
Defined.

Lemma broken_source_fails (from : Z) :
  ∃ e, broken_source "CommitmentProcessed" from = Raise e ∧ ∀ msg, e ≠ ValueError msg.
Proof. exists (IOException "connection reset"). split; [done|]. by intros msg. Defined.

Lemma get_events_fetch_failure_witness :
  (get_events broken_source ∅).1 = ∅
  ∧ (get_events broken_source ∅).2 = Raise (IOException "connection reset").
Proof.
  destruct (get_events_fetch_failure broken_source ∅
              (mkTable "commits_processed" "block_number" "CommitmentProcessed"))
    as [Hdb _].
  - unfold tables. in_list.
  - exact broken_source_fails.
  - split; [exact Hdb|]. by vm_compute.
Defined.





Lemma poll_append_only_witness :
  sample_db !! "commit_stores" = Some sample_commits
  ∧ (∃ t', (poll (λ _, sample_source) 3 0 sample_db).1.1 !! "commit_stores" = Some t'
           ∧ rows sample_commits `prefix_of` rows t')
  ∧ length (poll (λ _, sample_source) 3 0 sample_db).1.2 = 3%nat.
Proof.
  assert (Hs : sample_db !! "commit_stores" = Some sample_commits) by reflexivity.
  split; [exact Hs|].
  destruct (poll_append_only (λ _, sample_source) 3 0 sample_db "commit_stores"
              sample_commits Hs)
    as ((t' & Ht' & _ & Hp) & _ & _ & Hn).
  split; [exists t'; split; [exact Ht'|exact Hp]|]. apply Hn.
  vm_compute. reflexivity.
Defined.

(** * The definitions at work *)

Example write_reports_created :
  (write_to_duckdb incoming_commits "commit_stores" ∅).2
  = Ok "commit_stores: created table with 2 records".
Proof. by vm_compute. Qed.

(** The status of an append counts the rows offered, not the rows stored. *)
Example write_reports_attempted :
  (write_to_duckdb incoming_commits "commit_stores" stored_db).2
  = Ok "commit_stores: inserted 2 new records"
  ∧ height <$> (write_to_duckdb incoming_commits "commit_stores" stored_db).1
                 !! "commit_stores" = Some 2%nat.
Proof. split; by vm_compute. Qed.

Example write_reports_no_data :
  write_to_duckdb empty_frame "commit_stores" stored_db
  = (stored_db, Ok "commit_stores: no new data").
Proof. by vm_compute. Qed.

Example lock_conflicts_recognised :
  is_lock_conflict sample_runtime
    "IO Error: Could not set lock on file: Conflicting lock is held" = true
  ∧ is_lock_conflict sample_runtime "IO Error: Database Is Locked" = true
  ∧ is_lock_conflict sample_runtime "IO Error: No space left on device" = false.
Proof. by vm_compute. Qed.

(** Other I/O errors are not retried. *)
Example other_io_error_propagates :
  read_single_table sample_runtime
    (λ _, Some (IOException "IO Error: No space left on device"))
    sample_db "mev_commit.duckdb" "commit_stores"
    default_max_retries default_initial_delay default_backoff_factor
  = ([EConnect; ELogError "IO Error: No space left on device"],
     Raise (IOException "IO Error: No space left on device")).
Proof. by vm_compute. Qed.

(** A table is found under a name in another case; the requested spelling
    is the key of the result. *)
Example read_db_other_case :
  (read_db sample_runtime (λ _, None) sample_db "mev_commit.duckdb"
     ["Commit_Stores"] default_max_retries default_initial_delay
     default_backoff_factor).2
  = Ok {[ "Commit_Stores" := sample_commits ]}.
Proof. vm_compute. reflexivity. Qed.

(** The delays are products of floats: from 0.1 with factor 3 the second
    delay is 0.30000000000000004, and the waits of three retries do not add
    up to [0.1 * (1 + 3 + 9)]. *)
Example backoff_is_rounded :
  delays 0x1.999999999999ap-4 3 3
  = [0x1.999999999999ap-4; 0x1.3333333333334p-2; 0x1.ccccccccccccep-1]%float
  ∧ slept sample_runtime (delays 0x1.999999999999ap-4 3 3)
  ∧ sum_seconds (delays 0x1.999999999999ap-4 3 3)
    ≠ geometric (seconds 0x1.999999999999ap-4) (seconds 3) 3.
Proof.
  split; [vm_compute; reflexivity|]. split.
  - intros d Hd. simpl in Hd.
    repeat (apply elem_of_cons in Hd as [->|Hd]; [by vm_compute|]).
    by apply elem_of_nil in Hd.
  - intros H. apply (f_equal this) in H. vm_compute in H. discriminate H.
Qed.

(** First cycle on an empty store: the three tables are created and the
    view has the two commitments they share. *)
Example first_cycle :
  get_events sample_source ∅ = (sample_db, Ok sample_view)
  ∧ height sample_view = 2%nat
  ∧ column "txnHash" (rows sample_view) = [Str "0x0xaa"; Str "0xbb"]
  ∧ column "block_number_encrypted" (rows sample_view) = [Int 10; Int 11]
  ∧ column "isSlash" (rows sample_view) = [Bool false; Bool true].
Proof. repeat split; by vm_compute. Qed.

(** A second cycle with the same events changes nothing. *)
Example second_cycle :
  get_events sample_source sample_db = (sample_db, Ok sample_view).
Proof. vm_compute. reflexivity. Qed.
